(** * facebook-wda: the request / session / error pipeline of [wda/__init__.py]

    A shallow embedding of [BaseClient] (request pipeline, session
    discovery and creation, close, retry-decorated calls) and of
    [Alert.watch_and_click], followed by the properties of the specification
    that are settled on it.

    Conventions.
    - Python values that travel through the pipeline (decoded JSON, request
      payloads, [None]) are terms of [json]; a Python [dict] with string keys
      is a [gmap string json].
    - Python [str] is [string] (the UTF-8 bytes of the text).
    - A method of [BaseClient] is a computation [M A]: it reads and updates
      the receiver [self] and the world (the remote agent and the trace of
      what the process did: HTTP requests, sleeps, log records), and either
      returns, raises, or runs out of recursion budget.
    - Library code that the module calls ([urllib.parse], [requests],
      [retry], [wda.exceptions], [wda.utils]) is not part of the file at
      hand; what the module needs of it is the interface [Externals], the
      remote agent is the interface [Remote]. *)

From stdpp Require Import base strings list gmap.
From Stdlib Require Import Ascii String ZArith QArith Floats.PrimFloat.

Set Default Proof Using "Type".
#[local] Set Warnings "-register-all".
#[local] Open Scope string_scope.

(** ** Python values *)

Inductive json : Type :=
| JNull
| JBool (b : bool)
| JInt (z : Z)
| JFloat (f : PrimFloat.float)
| JStr (s : string)
| JList (l : list json)
| JObj (m : gmap string json).

(** [bool(x)] *)
Definition truthy (j : json) : bool :=
  match j with
  | JNull => false
  | JBool b => b
  | JInt z => negb (z =? 0)%Z
  | JFloat f => negb (PrimFloat.eqb f PrimFloat.zero)
  | JStr s => negb (String.eqb s "")
  | JList l => match l with [] => false | _ :: _ => true end
  | JObj m => negb (bool_decide (m = ∅))
  end.

(** [x or d] *)
Definition py_or (x d : json) : json := if truthy x then x else d.

(** [d.get(k)] *)
Definition dict_get (k : string) (d : gmap string json) : json :=
  default JNull (d !! k).

(** [d.setdefault(k, v)], as the statement it is used as. *)
Definition setdefault (k : string) (v : json) (d : gmap string json)
  : gmap string json :=
  match d !! k with
  | Some _ => d
  | None => <[k := v]> d
  end.

(** [d.pop(k, None)], as the statement it is used as. *)
Definition pop (k : string) (d : gmap string json) : gmap string json :=
  delete k d.

(** [x == 4] *)
Definition eq_4 (x : json) : bool :=
  match x with
  | JInt z => (z =? 4)%Z
  | JFloat f => PrimFloat.eqb f 4%float
  | _ => false
  end.

(** ** Strings *)

Definition upper_ascii (c : ascii) : ascii :=
  let n := nat_of_ascii c in
  if ((97 <=? n) && (n <=? 122))%nat then ascii_of_nat (n - 32) else c.

(** [s.upper()] *)
Fixpoint upper (s : string) : string :=
  match s with
  | EmptyString => EmptyString
  | String c r => String (upper_ascii c) (upper r)
  end.

Definition lower_ascii (c : ascii) : ascii :=
  let n := nat_of_ascii c in
  if ((65 <=? n) && (n <=? 90))%nat then ascii_of_nat (n + 32) else c.

(** The letters A to Z of a string in lower case, the rest as it is. *)
Fixpoint lower_letters (s : string) : string :=
  match s with
  | EmptyString => EmptyString
  | String c r => String (lower_ascii c) (lower_letters r)
  end.

(** [s.isascii()]: no byte of the string is part of a multi-byte
    character. *)
Definition isascii (s : string) : bool :=
  forallb (fun c => (nat_of_ascii c <? 128)%nat) (list_ascii_of_string s).

(** [s.lower()].  Python lowers a string by the case mappings of the Unicode
    database, which are not reproduced here: the method is a parameter, of
    which it is recorded that on a string of ASCII characters it lowers the
    letters A to Z and keeps every other character. *)
Class Casing := {
  lower : string → string;
  lower_isascii : ∀ s, isascii s = true → lower s = lower_letters s;
}.

(** [s.endswith(suf)] *)
Fixpoint endswith (s suf : string) : bool :=
  String.eqb s suf ||
  match s with
  | EmptyString => false
  | String _ r => endswith r suf
  end.

(** [sub in s] on strings *)
Fixpoint contains (sub s : string) : bool :=
  String.prefix sub s ||
  match s with
  | EmptyString => false
  | String _ r => contains sub r
  end.

(** ** Exceptions *)

Inductive ExnClass : Set :=
| WDAError
| WDABadGateway
| WDAEmptyResponseError
| WDARequestError
| WDAInvalidSessionIdError
| WDAPossiblyCrashedError
| WDAKeyboardNotPresentError
| WDAStaleElementReferenceError
| WDAUnknownError
| AttributeError
| KeyError
| TypeError
| ValueError
| AssertionError.

#[global] Instance ExnClass_eq_dec : EqDecision ExnClass.
Proof. solve_decision. Defined.

(** An exception object: its class and the arguments it was built from. *)
Record Exn : Type := mkExn { exn_class : ExnClass; exn_args : list json }.

(** Modelled from the spec: the class hierarchy of [wda.exceptions], which is
    not among the sources.  The five classified kinds are the remote-reported
    logical failures next to the generic [WDARequestError] (section 7), and
    [close] tests two of them with [isinstance] inside an
    [except WDARequestError] clause; the other kinds are unrelated to each
    other (the taxonomy is flat). *)
Definition issubclass (c base : ExnClass) : bool :=
  bool_decide (c = base) ||
  match base, c with
  | WDARequestError, WDAInvalidSessionIdError
  | WDARequestError, WDAPossiblyCrashedError
  | WDARequestError, WDAKeyboardNotPresentError
  | WDARequestError, WDAStaleElementReferenceError
  | WDARequestError, WDAUnknownError => true
  | _, _ => false
  end.

(** [isinstance(e, cls)] *)
Definition isinstance (e : Exn) (cls : ExnClass) : bool :=
  issubclass (exn_class e) cls.

(** [class Status(enum.IntEnum)] *)
Module Status.
Definition UNKNOWN : Z := 100.
Definition ERROR : Z := 110.
End Status.

(** [class Callback(str, enum.Enum)] *)
Module Callback.
Definition ERROR : string := "::error".
Definition HTTP_REQUEST_BEFORE : string := "::http-request-before".
Definition HTTP_REQUEST_AFTER : string := "::http-request-after".
Definition RET_RETRY : string := "::retry".
Definition RET_ABORT : string := "::abort".
Definition RET_CONTINUE : string := "::continue".
End Callback.

(** ** What the module imports *)

Class Externals : Type := {
  (** [urlparse(url).geturl()] *)
  geturl : string -> string;
  (** [urllib.parse.urljoin(base, url)] *)
  urljoin : string -> string -> string;
  (** [str(x)] for a value that is not a string, as an f-string formats it *)
  repr : json -> string;
  (** [err_cls.check(value)], the kind predicates of [wda.exceptions],
      taken to return a boolean for every value *)
  check : ExnClass -> gmap string json -> bool;
}.

(** [f"{x}"] *)
Definition format `{Externals} (x : json) : string :=
  match x with
  | JStr s => s
  | _ => repr x
  end.

(** ** The remote agent and the trace *)

(** The arguments of one [requests.request] call. *)
Record Request : Type := mkRequest {
  req_method : string;
  req_url : string;
  req_json : option json;
  req_headers : gmap string string;
  req_timeout : option Q;
}.

(** What [requests.request] does: it raises a [RequestException] (carried as
    its [str]), or it returns a response, of which the module reads
    [status_code], [text] and [json()] ([None] when [json()] raises
    [ValueError]). *)
Inductive HttpOutcome : Type :=
| RequestException (msg : string)
| HttpResponse (status_code : Z) (text : string) (decoded : option json).

(** The remote agent: a state and its answer to each request. *)
Class Remote (R : Type) : Type :=
  respond : R -> Request -> HttpOutcome * R.

(** What the process does that can be seen from outside: a call of
    [requests.request], a [time.sleep], a record handed to the logger, and
    the call of a handler of the callback registry. *)
Inductive Event : Type :=
| Http (rq : Request)
| Sleep (secs : Q)
| Log (level fmt : string) (args : list json)
| Invoke (event handler : string).

Record World (R : Type) : Type := mkWorld {
  device : R;
  trace : list Event;
}.
Arguments mkWorld {R} _ _.
Arguments device {R} _.
Arguments trace {R} _.

(** ** The client object *)

Record Client : Type := mkClient {
  __wda_url : string;
  __session_id : json;
  __timeout : Q;
  (** [defaultdict(list)]: event name to the handlers registered under it,
      a handler being known by its name *)
  __callbacks : gmap string (list string);
}.

Definition set_session_id (v : json) (c : Client) : Client :=
  mkClient (__wda_url c) v (__timeout c) (__callbacks c).

(** ** Computations *)

Inductive Outcome (A : Type) : Type :=
| Return (a : A)
| Raise (e : Exn)
| Exhausted.
Arguments Return {A} _.
Arguments Raise {A} _.
Arguments Exhausted {A}.

Record State (R : Type) : Type := mkState {
  self : Client;
  world : World R;
}.
Arguments mkState {R} _ _.
Arguments self {R} _.
Arguments world {R} _.

Definition M (R A : Type) : Type := State R -> Outcome A * State R.

Section Monad.
Context {R : Type}.

Definition ret {A} (a : A) : M R A := fun s => (Return a, s).

Definition raise {A} (e : Exn) : M R A := fun s => (Raise e, s).

Definition exhausted {A} : M R A := fun s => (Exhausted, s).

Definition lift {A} (o : Outcome A) : M R A := fun s => (o, s).

Definition bind {A B} (m : M R A) (k : A -> M R B) : M R B :=
  fun s =>
    match m s with
    | (Return a, s') => k a s'
    | (Raise e, s') => (Raise e, s')
    | (Exhausted, s') => (Exhausted, s')
    end.

(** [try: m  except <any>: handler(e)]; a handler that does not take the
    exception re-raises it. *)
Definition try_except {A} (m : M R A) (handler : Exn -> M R A) : M R A :=
  fun s =>
    match m s with
    | (Raise e, s') => handler e s'
    | r => r
    end.

Definition get_self : M R Client := fun s => (Return (self s), s).

Definition set_self (c : Client) : M R unit :=
  fun s => (Return tt, mkState c (world s)).

(** Run a method on another client object; the receiver is unchanged. *)
Definition on {A} (c : Client) (m : M R A) : M R A :=
  fun s =>
    let '(o, s') := m (mkState c (world s)) in
    (o, mkState (self s) (world s')).

Definition emit (ev : Event) : M R unit :=
  fun s =>
    (Return tt, mkState (self s)
                        (mkWorld (device (world s)) (trace (world s) ++ [ev]))).

(** [time.sleep(secs)] *)
Definition sleep (secs : Q) : M R unit := emit (Sleep (Qred secs)).

(** [logger.<level>(fmt, *args)] *)
Definition log (level fmt : string) (args : list json) : M R unit :=
  emit (Log level fmt args).

(** [requests.request(...)]: the agent answers and moves on. *)
Definition request `{!Remote R} (rq : Request) : M R HttpOutcome :=
  fun s =>
    let '(o, d) := respond (device (world s)) rq in
    (Return o, mkState (self s) (mkWorld d (trace (world s) ++ [Http rq]))).
End Monad.

Notation "'let*' x ':=' m 'in' k" := (bind m (fun x => k))
  (at level 10, x name, m at level 100, k at level 200).
Notation "m1 '>>' m2" := (bind m1 (fun _ => m2))
  (at level 100, m2 at level 200, right associativity).

(** ** The constructor *)

(** [BaseClient.__init__(url, _session_id)] *)
Definition BaseClient `{!Externals} (url : option string) (_session_id : json)
  : Outcome Client :=
  match url with
  | None => Raise (mkExn AttributeError [JStr "endswith"])
  | Some url =>
      let url := if negb (endswith url "/") then url ++ "/" else url in
      Return (mkClient (geturl url) _session_id 30.0 ∅)
  end.

(** ** Decoding a response *)

(** Modelled from the spec: [wda.utils.convert] and [AttrDict], which are not
    among the sources.  The envelope is the decoded mapping itself, and
    attribute access ([r.value], [r.sessionId]) reads the key of that name;
    on a key that is absent it fails as Python attribute access does. *)
Definition convert (d : gmap string json) : gmap string json := d.

Definition getattr (r : gmap string json) (name : string) : Outcome json :=
  match r !! name with
  | Some v => Return v
  | None => Raise (mkExn AttributeError [JStr name])
  end.

Definition is_continuation (c : ascii) : bool :=
  let n := nat_of_ascii c in ((128 <=? n) && (n <? 192))%nat.

(** The characters of a string (UTF-8 sequences of its bytes). *)
Fixpoint code_points (s : string) : list string :=
  match s with
  | EmptyString => []
  | String c r =>
      let starts_inside :=
        match r with
        | String d _ => is_continuation d
        | EmptyString => false
        end in
      match code_points r with
      | p :: ps =>
          if starts_inside then String c p :: ps
          else String c EmptyString :: p :: ps
      | [] => [String c EmptyString]
      end
  end.

(** [ord(ch)]: the number of a character, read off its UTF-8 sequence (the
    payload bits of the first byte, then six bits of each byte after it). *)
Definition ord (p : string) : N :=
  match p with
  | EmptyString => 0%N
  | String c r =>
      let n := N_of_ascii c in
      let first :=
        if (n <? 128)%N then n
        else if (n <? 224)%N then N.land n 31
        else if (n <? 240)%N then N.land n 15
        else N.land n 7 in
      fold_left (fun acc d => (acc * 64 + N.land (N_of_ascii d) 63)%N)
        (list_ascii_of_string r) first
  end.

(** [ch.isspace()], the characters that [str.strip] removes: the controls
    U+0009 to U+000D and U+001C to U+001F, the space, U+0085, U+00A0,
    U+1680, U+2000 to U+200A, U+2028, U+2029, U+202F, U+205F and U+3000. *)
Definition isspace (p : string) : bool :=
  let n := ord p in
  ((9 <=? n) && (n <=? 13) || (28 <=? n) && (n <=? 32)
   || (n =? 0x85) || (n =? 0xA0) || (n =? 0x1680)
   || (0x2000 <=? n) && (n <=? 0x200A)
   || (n =? 0x2028) || (n =? 0x2029) || (n =? 0x202F) || (n =? 0x205F)
   || (n =? 0x3000))%N.

(** [not s.strip()]: every character of the string is white space. *)
Definition blank (s : string) : bool := forallb isspace (code_points s).

(** [s[:n]] *)
Definition str_take (n : nat) (s : string) : string :=
  foldr String.append EmptyString (take n (code_points s)).

(** The classes [_fetch] tries, in the order it tries them. *)
Definition ERR_CLASSES : list ExnClass :=
  [ WDAInvalidSessionIdError;
    WDAPossiblyCrashedError;
    WDAKeyboardNotPresentError;
    WDAStaleElementReferenceError;
    WDAUnknownError ].

(** [_fetch], from the [except requests.RequestException] clause to the end:
    what becomes of the outcome [o] of [requests.request]. *)
Definition _fetch_decode `{!Externals} (method url : string) (data : json)
    (o : HttpOutcome) : Outcome (gmap string json) :=
  match o with
  | RequestException msg =>
      Raise (mkExn WDAError [JStr method; JStr url; JStr msg])
  | HttpResponse status_code text decoded =>
      if (status_code =? 502)%Z then
        Raise (mkExn WDABadGateway [JInt status_code; JStr text])
      else if blank text then
        Raise (mkExn WDAEmptyResponseError [JStr method; JStr url; data])
      else
        match decoded with
        | None =>
            Raise (mkExn WDAError
                     [JStr method; JStr url; JStr (str_take 100 text ++ "...")])
        | Some (JObj retjson) =>
            let r := convert (setdefault "status" (JInt 0) retjson) in
            match getattr r "value" with
            | Return (JObj r_value) =>
                if truthy (dict_get "error" r_value) then
                  let status := JInt Status.ERROR in
                  let value := pop "traceback" r_value in
                  match find (fun err_cls => check err_cls value) ERR_CLASSES with
                  | Some err_cls => Raise (mkExn err_cls [status; JObj value])
                  | None => Raise (mkExn WDARequestError [status; JObj value])
                  end
                else Return r
            | Return _ => Return r
            | Raise e => Raise e
            | Exhausted => Exhausted
            end
        | Some _ => Raise (mkExn AttributeError [JStr "setdefault"])
        end
  end.

(** ** The methods of [BaseClient] and [Alert] *)

Section Pipeline.
Context `{!Externals} {R : Type} `{!Remote R}.

(** The decorator [retry.retry(exceptions, tries=, delay=, jitter=)] of the
    [retry] package, with its default [backoff] of 1, no [max_delay], and a
    number as [jitter] (the record the package logs before it sleeps is left
    out):
<<
    _tries, _delay = tries, delay
    while _tries:
        try:
            return f()
        except exceptions as e:
            _tries -= 1
            if not _tries:
                raise
            time.sleep(_delay)
            _delay *= backoff
            _delay += jitter
>>  *)
Fixpoint retry (exceptions : ExnClass) (tries : nat) (delay jitter : Q)
    (f : M R json) : M R json :=
  match tries with
  | O => ret JNull
  | S _tries =>
      try_except f (fun e =>
        if isinstance e exceptions then
          match _tries with
          | O => raise e
          | S _ =>
              sleep delay >>
              retry exceptions _tries (delay * 1 + jitter) jitter f
          end
        else raise e)
  end.

(** The URL of a request that is not session-scoped:
    [urljoin(self.__wda_url, urlpath)]. *)
Definition base_url (c : Client) (urlpath : string) : string :=
  urljoin (__wda_url c) urlpath.

(** The URL of a session-scoped request:
    [urljoin(urljoin(self.__wda_url, f"session/{sid}/"), urlpath)]. *)
Definition session_url (c : Client) (sid : json) (urlpath : string) : string :=
  urljoin (urljoin (__wda_url c) ("session/" ++ format sid ++ "/")) urlpath.

(** The arguments [_fetch] hands to [requests.request]: the method in upper
    case, and a JSON body with its content type only for a truthy [data]. *)
Definition http_request (method url : string) (data : json)
    (timeout : option Q) : Request :=
  let headers : gmap string string :=
    if truthy data then {[ "Content-Type" := "application/json" ]} else ∅ in
  let json_data := if truthy data then Some data else None in
  mkRequest (upper method) url json_data headers timeout.

Section Methods.
(** The property [self.session_id], which is defined further down and
    reaches the methods through the instance. *)
Variable session_id : M R json.

(** [BaseClient._fetch] *)
Definition _fetch (method urlpath : string) (data : json)
    (with_session : bool) (timeout : option Q) : M R (gmap string json) :=
  let* c := get_self in
  let* url :=
    (if with_session then
       let* sid := session_id in
       ret (session_url c sid urlpath)
     else
       ret (base_url c urlpath)) in
  let* o := request (http_request method url data timeout) in
  lift (_fetch_decode method url data o).

(** The property [http]: [get] and [post] are [_fetch] with the method
    filled in. *)
Definition http_get (urlpath : string) (data : json) (timeout : option Q) :=
  _fetch "GET" urlpath data false timeout.
Definition http_post (urlpath : string) (data : json) (timeout : option Q) :=
  _fetch "POST" urlpath data false timeout.

(** The property [_session_http]: the same with [with_session=True]. *)
Definition _session_http_get (urlpath : string) (data : json)
    (timeout : option Q) :=
  _fetch "GET" urlpath data true timeout.
Definition _session_http_post (urlpath : string) (data : json)
    (timeout : option Q) :=
  _fetch "POST" urlpath data true timeout.

(** [is_ready] *)
Definition is_ready : M R bool :=
  try_except (http_get "status" JNull (Some 3%Q) >> ret true)
             (fun _ => ret false).

(** The body of [status], under its decorator. *)
Definition status_once : M R json :=
  let* res := http_get "status" JNull None in
  match res !! "value" with
  | None => raise (mkExn KeyError [JStr "value"])
  | Some (JObj value) =>
      ret (JObj (<["sessionId" := dict_get "sessionId" res]> value))
  | Some _ => raise (mkExn TypeError [])
  end.

(** [status], decorated with
    [retry.retry(exceptions=WDAEmptyResponseError, tries=3, delay=2)] *)
Definition status : M R json :=
  retry WDAEmptyResponseError 3 2 0 status_once.

(** [healthcheck] *)
Definition healthcheck : M R (gmap string json) :=
  http_get "wda/healthcheck" JNull None.

(** [locked] *)
Definition locked : M R json :=
  let* r := http_get "wda/locked" JNull None in lift (getattr r "value").

(** [lock], [unlock] *)
Definition lock : M R (gmap string json) := http_post "wda/lock" JNull None.
Definition unlock : M R (gmap string json) :=
  http_post "wda/unlock" JNull None.

(** The body of [app_current], under its decorator. *)
Definition app_current_once : M R json :=
  let* r := http_get "wda/activeAppInfo" JNull None in
  lift (getattr r "value").

(** [app_current], decorated with
    [retry.retry(WDAUnknownError, tries=3, delay=.5, jitter=.2)] *)
Definition app_current : M R json :=
  retry WDAUnknownError 3 0.5 0.2 app_current_once.



(** [app_activate], [app_terminate], [app_state] *)
Definition app_activate (bundle_id : json) : M R (gmap string json) :=
  _session_http_post "wda/apps/activate"
    (JObj {[ "bundleId" := bundle_id ]}) None.
Definition app_terminate (bundle_id : json) : M R (gmap string json) :=
  _session_http_post "wda/apps/terminate"
    (JObj {[ "bundleId" := bundle_id ]}) None.
Definition app_state (bundle_id : json) : M R (gmap string json) :=
  _session_http_post "wda/apps/state"
    (JObj {[ "bundleId" := bundle_id ]}) None.

(** [tap] *)
Definition tap (x y : json) : M R (gmap string json) :=
  try_except
    (_session_http_post "wda/tap" (JObj {[ "x" := x; "y" := y ]}) None)
    (fun _ =>
       _session_http_post "wda/tap/0" (JObj {[ "x" := x; "y" := y ]}) None).

(** The body of [send_keys], under its decorator. *)
Definition send_keys_once (value : json) : M R json :=
  let value :=
    match value with
    | JStr s => JList (JStr <$> code_points s)
    | _ => value
    end in
  let* r := _session_http_post "wda/keys" (JObj {[ "value" := value ]}) None in
  ret (JObj r).

(** [send_keys], decorated with
    [retry.retry(WDAKeyboardNotPresentError, tries=3, delay=1.0)] *)
Definition send_keys (value : json) : M R json :=
  retry WDAKeyboardNotPresentError 3 1.0 0 (send_keys_once value).

(** [app_launch] *)
Definition app_launch
    (bundle_id arguments environment wait_for_quiescence : json)
  : M R (gmap string json) :=
  (if match arguments with JList _ => true | _ => false end
   then ret tt else raise (mkExn AssertionError [])) >>
  (if match environment with JObj _ => true | _ => false end
   then ret tt else raise (mkExn AssertionError [])) >>
  let* is_locked := locked in
  (if truthy is_locked then unlock >> ret tt else ret tt) >>
  _session_http_post "wda/apps/launch"
    (JObj {[ "bundleId" := bundle_id;
             "arguments" := arguments;
             "environment" := environment;
             "shouldWaitForQuiescence" := wait_for_quiescence ]}) None.

(** [app_start], an alias *)
Definition app_start
    (bundle_id arguments environment wait_for_quiescence : json)
  : M R (gmap string json) :=
  app_launch bundle_id arguments environment wait_for_quiescence.

(** [app_stop], an alias that returns nothing *)
Definition app_stop (bundle_id : json) : M R json :=
  app_terminate bundle_id >> ret JNull.

(** The [for _ in range(k)] loop of the property [orientation]. *)
Fixpoint orientation_loop (k : nat) : M R json :=
  match k with
  | O => ret JNull
  | S k' =>
      let* r := _session_http_get "orientation" JNull None in
      let* result := lift (getattr r "value") in
      if truthy result then ret result
      else sleep 0.5 >> orientation_loop k'
  end.

(** The getter of the property [orientation] *)
Definition orientation : M R json := orientation_loop 3.

(** The setter of the property [orientation] *)
Definition set_orientation (value : json) : M R (gmap string json) :=
  _session_http_post "orientation" (JObj {[ "orientation" := value ]}) None.

(** [press] *)
Definition press (name : string) : M R json :=
  let valid_names := ["home"; "volumeUp"; "volumeDown"] in
  if negb (bool_decide (name ∈ valid_names)) then
    raise (mkExn ValueError
             [JStr ("Invalid name: " ++ name ++
                    ", should be one of ('home', 'volumeUp', 'volumeDown')")])
  else
    _session_http_post "wda/pressButton" (JObj {[ "name" := JStr name ]}) None >>
    ret JNull.

(** The table [hid_usages] of [press_duration]. *)
Definition hid_usages : gmap string Z :=
  {[ "home" := 0x40%Z;
     "volumeup" := 0xE9%Z;
     "volumedown" := 0xEA%Z;
     "power" := 0x30%Z;
     "snapshot" := 0x65%Z;
     "power+home" := 0x65%Z ]}.

(** [press_duration] *)
Context `{!Casing}.

Definition press_duration (name : string) (duration : json)
  : M R (gmap string json) :=
  let name := lower name in
  match hid_usages !! name with
  | None => raise (mkExn ValueError [JStr "Invalid name:"; JStr name])
  | Some hid_usage =>
      _session_http_post "wda/performIoHidEvent"
        (JObj {[ "page" := JInt 0x0C%Z;
                 "usage" := JInt hid_usage;
                 "duration" := duration ]}) None
  end.

(** *** [Alert] *)


(** [Alert.buttons] *)
Definition Alert_buttons : M R json :=
  let* r := _session_http_get "wda/alert/buttons" JNull None in
  lift (getattr r "value").

(** The property [Alert.text] *)
Definition Alert_text : M R json :=
  let* r := _session_http_get "alert/text" JNull None in
  lift (getattr r "value").

(** The property [Alert.exists] *)
Definition Alert_exists : M R bool :=
  try_except (Alert_text >> ret true)
    (fun e => if isinstance e WDARequestError then ret false else raise e).

(** [Alert.set_text], [Alert.accept], [Alert.dismiss] *)
Definition Alert_set_text (text : string) : M R (gmap string json) :=
  _session_http_post "alert/text" (JObj {[ "value" := JStr text ]}) None.
Definition Alert_accept : M R (gmap string json) :=
  _session_http_post "alert/accept" JNull None.
Definition Alert_dismiss : M R (gmap string json) :=
  _session_http_post "alert/dismiss" JNull None.

(** [name in names], for a string [name] *)
Definition py_in (name : string) (names : json) : Outcome bool :=
  match names with
  | JList l =>
      Return (existsb (fun x => match x with
                                | JStr s => String.eqb name s
                                | _ => false
                                end) l)
  | JStr s => Return (contains name s)
  | JObj m => Return (bool_decide (is_Some (m !! name)))
  | _ => Raise (mkExn TypeError [])
  end.

(** The argument of [Alert.click]: a name, a list of names, or [None]. *)
Inductive ButtonArg : Type :=
| BName (button_name : string)
| BNames (buttons : list string)
| BNone.

(** [Alert.click] on a name *)
Definition Alert_click_name (button_name : string) : M R json :=
  _session_http_post "alert/accept"
    (JObj {[ "name" := JStr button_name ]}) None >>
  ret (JStr button_name).

(** The [for] loop of [Alert.click] *)
Fixpoint Alert_click_first (buttons : list string) (avaliable_names : json)
  : M R json :=
  match buttons with
  | [] => raise (mkExn ValueError
                   [JStr "Only these buttons can be clicked"; avaliable_names])
  | bname :: rest =>
      let* found := lift (py_in bname avaliable_names) in
      if found : bool then Alert_click_name bname
      else Alert_click_first rest avaliable_names
  end.

(** [Alert.click] *)
Definition Alert_click (button_name : ButtonArg) : M R json :=
  match button_name with
  | BName name => Alert_click_name name
  | BNames buttons =>
      let* avaliable_names := Alert_buttons in
      Alert_click_first buttons avaliable_names
  | BNone =>
      Alert_buttons >> raise (mkExn TypeError [])
  end.

(** [Alert.click_exists] *)
Definition Alert_click_exists (buttons : ButtonArg) : M R json :=
  try_except (Alert_click buttons)
    (fun e =>
       if isinstance e ValueError || isinstance e WDARequestError
       then ret JNull else raise e).


(** The [for ... else] of [_inner]. *)
Fixpoint _inner_click (buttons : list string) (alert_buttons : json)
  : M R unit :=
  match buttons with
  | [] => log "warning" "Alert not handled" []
  | btn_name :: rest =>
      let* found := lift (py_in btn_name alert_buttons) in
      if found : bool then
        log "info" "Alert click: %s" [JStr btn_name] >>
        Alert_click (BName btn_name) >>
        ret tt
      else _inner_click rest alert_buttons
  end.

(** The [try] block of [_inner]. *)
Definition _inner_try (buttons : list string) : M R unit :=
  let* alert_buttons := Alert_buttons in
  log "info" "Alert detected, buttons: %s" [alert_buttons] >>
  _inner_click buttons alert_buttons.

(** One turn of the [while] loop of [_inner], up to its [time.sleep]. *)
Definition _inner_tick (buttons : list string) : M R unit :=
  try_except (_inner_try buttons)
    (fun e => if isinstance e WDARequestError then ret tt else raise e).

(** The watcher thread, [_inner].  It runs next to the foreground code;
    what it sees of it is what each [event.is_set()] returns, given here
    as the list [event_is_set] (when the list ends the run is cut). *)
Fixpoint _inner (event_is_set : list bool) (buttons : list string)
    (interval : Q) : M R unit :=
  match event_is_set with
  | [] => exhausted
  | true :: _ => ret tt
  | false :: later =>
      _inner_tick buttons >>
      sleep interval >>
      _inner later buttons interval
  end.

End Methods.


(** *** Session discovery and creation *)

(** [alert_action in ["accept", "dismiss"]] *)
Definition is_alert_action (alert_action : json) : bool :=
  match alert_action with
  | JStr s => String.eqb s "accept" || String.eqb s "dismiss"
  | _ => false
  end.

(** The [capabilities] dictionary of [session]. *)
Definition session_capabilities
    (bundle_id arguments environment alert_action : json)
  : Outcome (gmap string json) :=
  if truthy bundle_id then
    let always_match : gmap string json :=
      {[ "bundleId" := bundle_id;
         "arguments" := py_or arguments (JList []);
         "environment" := py_or environment (JObj ∅);
         "shouldWaitForQuiescence" := JBool false ]} in
    if truthy alert_action then
      if is_alert_action alert_action then
        Return (<["alwaysMatch" := JObj always_match]>
                  {[ "defaultAlertAction" := alert_action ]})
      else Raise (mkExn AssertionError [])
    else Return {[ "alwaysMatch" := JObj always_match ]}
  else Return ∅.

(** The [payload] dictionary of [session]. *)
Definition session_payload (capabilities : gmap string json) : json :=
  JObj {[ "capabilities" := JObj capabilities;
          "desiredCapabilities" :=
            default (JObj ∅) (capabilities !! "alwaysMatch") ]}.

(** The property [session_id] and the method [session], which call each
    other; [n] bounds how deep these calls may nest.  The calls that are not
    session-scoped ([status], [locked], [unlock], [http.post]) never read the
    property they are handed. *)
Fixpoint session_id (n : nat) : M R json :=
  let* c := get_self in
  if truthy (__session_id c) then ret (__session_id c)
  else
    match n with
    | O => exhausted
    | S n' =>
        let* st := status (session_id n') in
        let current_sid :=
          match st with JObj d => dict_get "sessionId" d | _ => JNull end in
        if truthy current_sid then
          set_self (set_session_id current_sid c) >>
          ret current_sid
        else
          let* client := session n' JNull JNull JNull JNull in
          on client (session_id n')
    end
with session (n : nat) (bundle_id arguments environment alert_action : json)
  : M R Client :=
  match n with
  | O => exhausted
  | S n' =>
      let* capabilities :=
        lift (session_capabilities bundle_id arguments environment
                alert_action) in
      let payload := session_payload capabilities in
      let* is_locked := locked (session_id n') in
      (if truthy is_locked then unlock (session_id n') >> ret tt else ret tt) >>
      let* res :=
        try_except (http_post (session_id n') "session" payload None)
          (fun e =>
             if isinstance e WDAEmptyResponseError then
               let* client := session n' JNull JNull JNull JNull in
               let* res := on client (app_state (session_id n') bundle_id) in
               let* value := lift (getattr res "value") in
               if negb (eq_4 value) then raise e else ret res
             else raise e) in
      let* sid := lift (getattr res "sessionId") in
      let* c := get_self in
      let* client := lift (BaseClient (Some (__wda_url c)) sid) in
      ret (mkClient (__wda_url client) (__session_id client)
                    (__timeout c) (__callbacks c))
  end.

(** The agent's answer to one request, as [_fetch] reads it, and the state
    the agent is left in. *)
Definition call (d : R) (method url : string) (data : json)
    (timeout : option Q) : Outcome (gmap string json) * R :=
  let '(o, d') := respond d (http_request method url data timeout) in
  (_fetch_decode method url data o, d').

(** ** Vocabulary of the properties *)

(** The state after [time.sleep(secs)]. *)
Definition slept (secs : Q) (s : State R) : State R :=
  mkState (self s)
          (mkWorld (device (world s)) (trace (world s) ++ [Sleep (Qred secs)])).

(** The retry policy in the words of the specification: [op] makes up to
    three attempts [f]; an attempt that fails with an error of the class
    [exc] is followed, after a delay, by the next attempt; any other outcome
    of an attempt, and whatever the third attempt does, is what [op] does. *)
Definition retries_thrice (exc : ExnClass) (delay1 delay2 : Q)
    (f op : M R json) : Prop :=
  ∀ s,
    op s =
    match f s with
    | (Raise e1, s1) =>
        if isinstance e1 exc then
          match f (slept delay1 s1) with
          | (Raise e2, s2) =>
              if isinstance e2 exc then f (slept delay2 s2)
              else (Raise e2, s2)
          | r => r
          end
        else (Raise e1, s1)
    | r => r
    end.

(** [op], run by the client [c], is the one request [method url data]: what
    the agent answers is what [op] returns or raises. *)
Definition one_request (c : Client) (method url : string) (data : json)
    (op : M R (gmap string json)) : Prop :=
  ∀ d t,
    op (mkState c (mkWorld d t)) =
    ((call d method url data None).1,
     mkState c (mkWorld (call d method url data None).2
                  (t ++ [Http (http_request method url data None)]))).

(** The agent, in state [d], answers the [if self.locked(): self.unlock()]
    of client [c]: it reports the lock state and, for a locked device,
    unlocks it.  [evs] are the requests this takes and [d'] is the state the
    agent is left in. *)
Definition lock_checked (c : Client) (d : R) (evs : list Event) (d' : R)
  : Prop :=
  ∃ lk lv d1,
    call d "GET" (base_url c "wda/locked") JNull None = (Return lk, d1)
    ∧ lk !! "value" = Some lv
    ∧ if truthy lv then
        ∃ ul,
          call d1 "POST" (base_url c "wda/unlock") JNull None = (Return ul, d')
          ∧ evs = [ Http (http_request "GET" (base_url c "wda/locked")
                            JNull None);
                    Http (http_request "POST" (base_url c "wda/unlock")
                            JNull None) ]
      else
        d' = d1
        ∧ evs = [ Http (http_request "GET" (base_url c "wda/locked")
                          JNull None) ].

(** A computation that leaves the receiver as it found it. *)
Definition keeps_self {A} (m : M R A) : Prop :=
  ∀ s, self (snd (m s)) = self s.

(** The client [session] returns for the identifier [sid]: a new client for
    the same URL, with the timeout and the registry of the receiver. *)
Definition session_client (c : Client) (sid : json) : Outcome Client :=
  match BaseClient (Some (__wda_url c)) sid with
  | Return client =>
      Return (mkClient (__wda_url client) (__session_id client)
                       (__timeout c) (__callbacks c))
  | Raise e => Raise e
  | Exhausted => Exhausted
  end.

End Pipeline.

(** ** A reference configuration, for the worked examples *)

Module Sample.

Definition sample_repr (x : json) : string :=
  match x with
  | JNull => "None"
  | JBool true => "True"
  | JBool false => "False"
  | _ => "?"
  end.

Definition error_is (code : string) (value : gmap string json) : bool :=
  match value !! "error" with
  | Some (JStr s) => String.eqb s code
  | _ => false
  end.

Definition message_has (sub : string) (value : gmap string json) : bool :=
  match value !! "message" with
  | Some (JStr s) => contains sub s
  | _ => false
  end.

(** Modelled from the spec: the kind predicates of [wda.exceptions], which
    is not among the sources; each "inspects the error code and/or message
    substring" (section 4.2).  The codes are those of the WebDriver protocol
    for the condition each kind stands for. *)
Definition sample_check (cls : ExnClass) (value : gmap string json) : bool :=
  match cls with
  | WDAInvalidSessionIdError => error_is "invalid session id" value
  | WDAPossiblyCrashedError => message_has "possibly crashed" value
  | WDAKeyboardNotPresentError =>
      error_is "invalid element state" value
      && message_has "keyboard must be present" value
  | WDAStaleElementReferenceError => error_is "stale element reference" value
  | WDAUnknownError => error_is "unknown error" value
  | _ => false
  end.

(** URLs are joined by concatenation, which is what [urljoin] does for a
    base that ends in a slash and the relative paths used below. *)
#[export] Instance externals : Externals := {|
  geturl := id;
  urljoin := String.append;
  repr := sample_repr;
  check := sample_check;
|}.

(** The names of the examples are ASCII strings, on which [str.lower] is
    the lowering of the letters A to Z. *)
#[export] Instance casing : Casing := {|
  lower := lower_letters;
  lower_isascii := fun _ _ => eq_refl;
|}.

(** A scripted agent: it gives the listed answers in order, then refuses
    connections. *)
#[export] Instance scripted : Remote (list HttpOutcome) :=
  fun script _ =>
    match script with
    | o :: rest => (o, rest)
    | [] => (RequestException "Connection refused", [])
    end.

(** A response with status 200 whose body decodes to [j] (the body text is
    abridged: once it is not blank only its decoding is read). *)
Definition ok (j : json) : HttpOutcome := HttpResponse 200 "{...}" (Some j).

(** An envelope. *)
Definition envelope (value session : json) : json :=
  JObj {[ "value" := value; "sessionId" := session; "status" := JInt 0 ]}.

(** An error envelope. *)
Definition failure (code message : string) : json :=
  JObj {[ "value" := JObj {[ "error" := JStr code;
                             "message" := JStr message;
                             "traceback" := JStr "" ]};
          "sessionId" := JNull ]}.

Definition start (c : Client) (script : list HttpOutcome)
  : State (list HttpOutcome) :=
  mkState c (mkWorld script []).

Definition unbound : Client := mkClient "http://localhost:8100/" JNull 30.0 ∅.
Definition bound : Client :=
  mkClient "http://localhost:8100/" (JStr "S1") 30.0 ∅.

(** A client with a handler registered for each of the three events. *)
Definition observed : Client :=
  mkClient "http://localhost:8100/" (JStr "S1") 30.0
    {[ Callback.HTTP_REQUEST_BEFORE := ["before"];
       Callback.HTTP_REQUEST_AFTER := ["after"];
       Callback.ERROR := ["failed"] ]}.

(** The value of an error the agent sends for a session that is gone. *)
Definition gone_value : gmap string json :=
  {[ "error" := JStr "invalid session id";
     "message" := JStr "Session does not exist";
     "traceback" := JStr "" ]}.

Definition gone_reply : gmap string json :=
  {[ "value" := JObj gone_value; "sessionId" := JNull ]}.

(** An error that none of the five predicates takes, in an envelope whose
    status is 13. *)
Definition odd_value : gmap string json :=
  {[ "error" := JStr "unsupported operation";
     "traceback" := JStr "" ]}.

Definition odd_reply : gmap string json :=
  {[ "status" := JInt 13; "value" := JObj odd_value ]}.

(** The answer of an agent that shows no keyboard. *)
Definition no_keyboard : HttpOutcome :=
  ok (failure "invalid element state"
        "The on-screen keyboard must be present to send keys").

(** An agent that gives the same answer to every request. *)
Definition constant (o : HttpOutcome) : Remote unit := fun _ _ => (o, tt).

(** Envelopes as [_fetch] returns them. *)
Definition no_session : gmap string json :=
  {[ "value" := JObj ∅; "sessionId" := JNull; "status" := JInt 0 ]}.
Definition unlocked : gmap string json :=
  {[ "value" := JBool false; "sessionId" := JNull; "status" := JInt 0 ]}.
Definition created (sid : string) : gmap string json :=
  {[ "value" := JObj ∅; "sessionId" := JStr sid; "status" := JInt 0 ]}.
Definition state_of (sid : string) (state : Z) : gmap string json :=
  {[ "value" := JInt state; "sessionId" := JStr sid; "status" := JInt 0 ]}.
Definition done_with (sid : string) : gmap string json :=
  {[ "value" := JNull; "sessionId" := JStr sid; "status" := JInt 0 ]}.
Definition labels_of (labels : list json) : gmap string json :=
  {[ "value" := JList labels; "sessionId" := JStr "S1"; "status" := JInt 0 ]}.

(** Requests, as they appear in a trace. *)
Definition GET (url : string) : Event :=
  Http (http_request "GET" url JNull None).
Definition POST (url : string) (data : json) : Event :=
  Http (http_request "POST" url data None).

(** More envelopes and clients. *)
Definition answer (value : json) : gmap string json :=
  {[ "value" := value; "sessionId" := JStr "S1"; "status" := JInt 0 ]}.
Definition bare_answer : gmap string json :=
  {[ "value" := JStr "PORTRAIT"; "sessionId" := JStr "S1" ]}.
Definition locked_device : gmap string json :=
  {[ "value" := JBool true; "sessionId" := JNull; "status" := JInt 0 ]}.
Definition anonymous : gmap string json :=
  {[ "value" := JObj ∅; "status" := JInt 0 ]}.
Definition no_alert : HttpOutcome :=
  ok (failure "no such alert" "No alert is open").
Definition no_alert_error : Exn :=
  mkExn WDARequestError
    [ JInt 110;
      JObj {[ "error" := JStr "no such alert";
              "message" := JStr "No alert is open" ]} ].
Definition bad_gateway : Exn :=
  mkExn WDABadGateway [JInt 502; JStr "Bad Gateway"].
Definition patient : Client :=
  mkClient "http://localhost:8100/" (JStr "S1") 120 ∅.

(** The number of session-creation calls in a trace. *)
Definition creation_calls (t : list Event) : nat :=
  List.length (List.filter
            (fun ev => match ev with
                       | Http rq =>
                           String.eqb (req_method rq) "POST"
                           && String.eqb (req_url rq)
                                "http://localhost:8100/session"
                       | _ => false
                       end) t).

End Sample.

(** * Properties *)

(** ** Values and strings *)

Lemma endswith_app_slash (u : string) : endswith (u ++ "/") "/" = true.
Proof.
  induction u as [|a u IH]; [reflexivity|].
  change (endswith (String a u ++ "/") "/")
    with (String.eqb (String a (u ++ "/")) "/" || endswith (u ++ "/") "/").
  rewrite IH. apply orb_true_r.
Qed.

Lemma dict_get_insert (k : string) (v : json) (d : gmap string json) :
  dict_get k (<[k := v]> d) = v.
Proof. unfold dict_get. by rewrite lookup_insert_eq. Qed.

Lemma pop_absent (k : string) (d : gmap string json) : pop k d !! k = None.
Proof. unfold pop. apply lookup_delete_eq. Qed.

Lemma pop_other (k k' : string) (d : gmap string json) :
  k ≠ k' → pop k d !! k' = d !! k'.
Proof. intros Hne. unfold pop. by apply lookup_delete_ne. Qed.

Lemma setdefault_other (k k' : string) (v : json) (d : gmap string json) :
  k ≠ k' → setdefault k v d !! k' = d !! k'.
Proof.
  intros Hne. unfold setdefault.
  destruct (d !! k); [done|]. by apply lookup_insert_ne.
Qed.

Lemma setdefault_status_present (d : gmap string json) :
  is_Some (setdefault "status" (JInt 0) d !! "status").
Proof.
  unfold setdefault. destruct (d !! "status") eqn:E.
  - rewrite E. eauto.
  - rewrite lookup_insert_eq. eauto.
Qed.

(** ** The response classifier *)

Section Classifier.
Context `{!Externals}.

(** The class [_fetch] picks for a cleaned error value: the first of the five
    whose predicate holds, the generic class when none does. *)
Lemma find_first_class (value : gmap string json) :
  default WDARequestError (find (fun cls => check cls value) ERR_CLASSES) =
  if check WDAInvalidSessionIdError value then WDAInvalidSessionIdError
  else if check WDAPossiblyCrashedError value then WDAPossiblyCrashedError
  else if check WDAKeyboardNotPresentError value then WDAKeyboardNotPresentError
  else if check WDAStaleElementReferenceError value
       then WDAStaleElementReferenceError
  else if check WDAUnknownError value then WDAUnknownError
  else WDARequestError.
Proof.
  unfold ERR_CLASSES. cbn [find].
  repeat (match goal with |- context [if ?b then _ else _] => destruct b end;
          try reflexivity).
Qed.

(** What [_fetch] does with a response that decodes to an envelope whose
    [value] is an error mapping. *)
Lemma fetch_decode_error (method url : string) (data : json)
    (status_code : Z) (text : string) (retjson r_value : gmap string json) :
  status_code ≠ 502%Z →
  blank text = false →
  retjson !! "value" = Some (JObj r_value) →
  truthy (dict_get "error" r_value) = true →
  _fetch_decode method url data
    (HttpResponse status_code text (Some (JObj retjson))) =
  Raise (mkExn
           (default WDARequestError
              (find (fun cls => check cls (pop "traceback" r_value))
                    ERR_CLASSES))
           [JInt Status.ERROR; JObj (pop "traceback" r_value)]).
Proof.
  intros Hcode Hblank Hvalue Herror. unfold _fetch_decode.
  destruct (Z.eqb_spec status_code 502) as [?|_]; [done|].
  rewrite Hblank. unfold getattr, convert.
  rewrite setdefault_other by done. rewrite Hvalue, Herror.
  by destruct (find _ ERR_CLASSES).
Qed.

(** C1 (as amended): for a decoded envelope whose [value] is a mapping with
    a truthy [error], [_fetch] raises exactly one error; its class is the
    first of InvalidSessionId, PossiblyCrashed, KeyboardNotPresent,
    StaleElementReference, Unknown whose predicate holds of the cleaned
    value, and the generic [WDARequestError] when none holds; the error
    carries the constant [Status.ERROR] (110) and the value without its
    [traceback]. *)
Theorem fetch_classifies_error (method url : string) (data : json)
    (status_code : Z) (text : string) (retjson r_value : gmap string json) :
  status_code ≠ 502%Z →
  blank text = false →
  retjson !! "value" = Some (JObj r_value) →
  truthy (dict_get "error" r_value) = true →
  let value := pop "traceback" r_value in
  let kind :=
    if check WDAInvalidSessionIdError value then WDAInvalidSessionIdError
    else if check WDAPossiblyCrashedError value then WDAPossiblyCrashedError
    else if check WDAKeyboardNotPresentError value
         then WDAKeyboardNotPresentError
    else if check WDAStaleElementReferenceError value
         then WDAStaleElementReferenceError
    else if check WDAUnknownError value then WDAUnknownError
    else WDARequestError in
  _fetch_decode method url data
    (HttpResponse status_code text (Some (JObj retjson))) =
  Raise (mkExn kind [JInt 110; JObj value])
  ∧ value !! "traceback" = None
  ∧ (∀ k, k ≠ "traceback" → value !! k = r_value !! k).
Proof.
  intros Hcode Hblank Hvalue Herror value kind. split; [|split].
  - rewrite (fetch_decode_error _ _ _ _ _ _ r_value) by done.
    fold value. by rewrite find_first_class.
  - apply pop_absent.
  - intros k Hk. by apply pop_other.
Qed.

(** C6 (as amended): a body that is not blank and not valid JSON, on a
    response other than 502, makes [_fetch] raise the base [WDAError] with
    the method, the URL and the first 100 characters of the body followed by
    an ellipsis; a network-level fault raises the same class [WDAError],
    with the method, the URL and the text of the fault.  The two differ in
    their message, not in their kind. *)
Theorem fetch_malformed_body (method url : string) (data : json)
    (status_code : Z) (text msg : string) :
  status_code ≠ 502%Z →
  blank text = false →
  _fetch_decode method url data (HttpResponse status_code text None) =
  Raise (mkExn WDAError
           [JStr method; JStr url; JStr (str_take 100 text ++ "...")])
  ∧ _fetch_decode method url data (RequestException msg) =
    Raise (mkExn WDAError [JStr method; JStr url; JStr msg]).
Proof.
  intros Hcode Hblank. split; [|reflexivity].
  unfold _fetch_decode.
  destruct (Z.eqb_spec status_code 502) as [?|_]; [done|].
  by rewrite Hblank.
Qed.

(** A body of white space is an empty body whatever the white space is:
    here a no-break space (U+00A0) and an ideographic space (U+3000). *)
Lemma fetch_decode_blank_unicode (method url : string) (data : json)
    (decoded : option json) :
  _fetch_decode method url data
    (HttpResponse 200
       (String "194" (String "160"
          (String "227" (String "128" (String "128" EmptyString)))))
       decoded)
  = Raise (mkExn WDAEmptyResponseError [JStr method; JStr url; data]).
Proof. reflexivity. Qed.

(** ** The constructor *)

(** The constructor gives the same client for a URL and for that URL with
    the separator appended. *)
Lemma BaseClient_slash (u : string) (sid : json) :
  endswith u "/" = false →
  BaseClient (Some u) sid = BaseClient (Some (u ++ "/")) sid.
Proof.
  intros Hu. unfold BaseClient. by rewrite Hu, endswith_app_slash.
Qed.

(** C8: for a base URL [u] that does not end in the separator, the client
    built from [u] and the client built from [u + "/"] are the same client,
    so every base-scoped and every session-scoped request URL they derive,
    for every path and every session identifier, is the same. *)
Theorem base_url_normalization (u : string) (init_sid sid : json)
    (urlpath : string) :
  endswith u "/" = false →
  ∃ c1 c2,
    BaseClient (Some u) init_sid = Return c1
    ∧ BaseClient (Some (u ++ "/")) init_sid = Return c2
    ∧ c1 = c2
    ∧ __wda_url c1 = geturl (u ++ "/")
    ∧ base_url c1 urlpath = base_url c2 urlpath
    ∧ session_url c1 sid urlpath = session_url c2 sid urlpath.
Proof.
  intros Hu. rewrite <- BaseClient_slash by done.
  unfold BaseClient. rewrite Hu. cbn [negb].
  eexists _, _. repeat split; reflexivity.
Qed.

End Classifier.

(** ** The request pipeline *)

Section Facts.
Context `{!Externals} {R : Type} `{!Remote R}.
Implicit Types (c : Client) (d : R) (t : list Event) (s : State R).
Implicit Types (e : Exn) (prop : M R json).

Lemma bind_return {A B} (m : M R A) (k : A → M R B) s a s' :
  m s = (Return a, s') → bind m k s = k a s'.
Proof. intros Hm. unfold bind. by rewrite Hm. Qed.

Lemma bind_raise {A B} (m : M R A) (k : A → M R B) s e s' :
  m s = (Raise e, s') → bind m k s = (Raise e, s').
Proof. intros Hm. unfold bind. by rewrite Hm. Qed.

Lemma bind_exhausted {A B} (m : M R A) (k : A → M R B) s s' :
  m s = (Exhausted, s') → bind m k s = (Exhausted, s').
Proof. intros Hm. unfold bind. by rewrite Hm. Qed.

Lemma try_except_return {A} (m : M R A) (h : Exn → M R A) s a s' :
  m s = (Return a, s') → try_except m h s = (Return a, s').
Proof. intros Hm. unfold try_except. by rewrite Hm. Qed.

Lemma try_except_raise {A} (m : M R A) (h : Exn → M R A) s e s' :
  m s = (Raise e, s') → try_except m h s = h e s'.
Proof. intros Hm. unfold try_except. by rewrite Hm. Qed.

(** A request that is not session-scoped is one call to the agent at the
    base URL, whatever the session slot holds. *)
Lemma fetch_base prop (method urlpath : string) (data : json)
    (timeout : option Q) c d t res d' :
  call d method (base_url c urlpath) data timeout = (res, d') →
  _fetch prop method urlpath data false timeout (mkState c (mkWorld d t)) =
  (res, mkState c (mkWorld d'
          (t ++ [Http (http_request method (base_url c urlpath) data timeout)]))).
Proof.
  unfold call, _fetch, bind, get_self, ret, request, lift. cbn.
  destruct (respond d _) as [o d'']. intros [= <- <-].
  by destruct (_fetch_decode _ _ _ o).
Qed.

(** Reading the identifier of a bound client costs nothing. *)
Lemma session_id_cached (n : nat) c (w : World R) :
  truthy (__session_id c) = true →
  session_id n (mkState c w) = (Return (__session_id c), mkState c w).
Proof.
  intros Hsid. destruct n; cbn; unfold bind, get_self, ret; cbn;
    by rewrite Hsid.
Qed.

(** A session-scoped request of a bound client is one call to the agent at
    the session URL. *)
Lemma fetch_bound (n : nat) (method urlpath : string) (data : json)
    (timeout : option Q) c d t res d' :
  truthy (__session_id c) = true →
  call d method (session_url c (__session_id c) urlpath) data timeout
  = (res, d') →
  _fetch (session_id n) method urlpath data true timeout
    (mkState c (mkWorld d t)) =
  (res, mkState c (mkWorld d'
          (t ++ [Http (http_request method
                         (session_url c (__session_id c) urlpath)
                         data timeout)]))).
Proof.
  intros Hsid. unfold call, _fetch.
  rewrite (bind_return _ _ _ c (mkState c (mkWorld d t))) by reflexivity.
  cbn beta iota.
  erewrite (bind_return (bind (session_id n) _));
    [|erewrite bind_return; [reflexivity|by apply session_id_cached]].
  unfold bind, request, lift. cbn.
  destruct (respond d _) as [o d'']. intros [= <- <-].
  by destruct (_fetch_decode _ _ _ o).
Qed.

(** What [_fetch] does when the session identifier cannot be had. *)
Lemma fetch_session_raise prop (method urlpath : string) (data : json)
    (timeout : option Q) s e s' :
  prop s = (Raise e, s') →
  _fetch prop method urlpath data true timeout s = (Raise e, s').
Proof.
  intros Hsid. unfold _fetch.
  rewrite (bind_return _ _ _ (self s) s) by reflexivity. cbn beta iota.
  apply bind_raise. by apply bind_raise.
Qed.


(** ** Retry *)

Lemma retry_return (exc : ExnClass) (k : nat) (delay jitter : Q)
    (f : M R json) s a s' :
  f s = (Return a, s') →
  retry exc (S k) delay jitter f s = (Return a, s').
Proof. intros Hf. cbn. by apply try_except_return. Qed.

Lemma retry_other (exc : ExnClass) (k : nat) (delay jitter : Q)
    (f : M R json) s e s' :
  f s = (Raise e, s') →
  isinstance e exc = false →
  retry exc (S k) delay jitter f s = (Raise e, s').
Proof.
  intros Hf He. cbn. rewrite (try_except_raise _ _ _ e s') by done.
  by rewrite He.
Qed.

Lemma retry_last (exc : ExnClass) (delay jitter : Q) (f : M R json) s :
  retry exc 1 delay jitter f s = f s.
Proof.
  cbn. unfold try_except. destruct (f s) as [[a|e|] s']; try reflexivity.
  by destruct (isinstance e exc).
Qed.

Lemma retry_again (exc : ExnClass) (k : nat) (delay jitter : Q)
    (f : M R json) s e s' :
  f s = (Raise e, s') →
  isinstance e exc = true →
  retry exc (S (S k)) delay jitter f s =
  retry exc (S k) (delay * 1 + jitter) jitter f (slept delay s').
Proof.
  intros Hf He. cbn [retry].
  rewrite (try_except_raise _ _ _ e s') by done. rewrite He.
  reflexivity.
Qed.

(** ** Session discovery and creation *)

Lemma status_once_return prop c d t st st_value d1 :
  call d "GET" (base_url c "status") JNull None = (Return st, d1) →
  st !! "value" = Some (JObj st_value) →
  status_once prop (mkState c (mkWorld d t)) =
  (Return (JObj (<["sessionId" := dict_get "sessionId" st]> st_value)),
   mkState c (mkWorld d1
     (t ++ [Http (http_request "GET" (base_url c "status") JNull None)]))).
Proof.
  intros Hcall Hvalue. unfold status_once, http_get.
  erewrite bind_return by (by apply fetch_base). by rewrite Hvalue.
Qed.

Lemma status_return prop c d t st st_value d1 :
  call d "GET" (base_url c "status") JNull None = (Return st, d1) →
  st !! "value" = Some (JObj st_value) →
  status prop (mkState c (mkWorld d t)) =
  (Return (JObj (<["sessionId" := dict_get "sessionId" st]> st_value)),
   mkState c (mkWorld d1
     (t ++ [Http (http_request "GET" (base_url c "status") JNull None)]))).
Proof.
  intros Hcall Hvalue. unfold status. apply retry_return.
  by apply status_once_return.
Qed.

Lemma locked_return prop c d t lk lv d1 :
  call d "GET" (base_url c "wda/locked") JNull None = (Return lk, d1) →
  lk !! "value" = Some lv →
  locked prop (mkState c (mkWorld d t)) =
  (Return lv,
   mkState c (mkWorld d1
     (t ++ [Http (http_request "GET" (base_url c "wda/locked") JNull None)]))).
Proof.
  intros Hcall Hvalue. unfold locked, http_get.
  erewrite bind_return by (by apply fetch_base).
  unfold lift, getattr. by rewrite Hvalue.
Qed.

(** The [if self.locked(): self.unlock()] of [session] and of [app_launch],
    against an agent that answers it. *)
Lemma lock_checked_run {A} prop (k : M R A) c d t evs d' :
  lock_checked c d evs d' →
  (let* is_locked := locked prop in
   (if truthy is_locked then unlock prop >> ret tt else ret tt) >> k)
    (mkState c (mkWorld d t)) =
  k (mkState c (mkWorld d' (t ++ evs))).
Proof.
  intros (lk & lv & d1 & Hlocked & Hvalue & Hunlock).
  erewrite bind_return by (by eapply locked_return).
  destruct (truthy lv).
  - destruct Hunlock as (ul & Hcall & ->).
    erewrite bind_return; [reflexivity|].
    erewrite bind_return; [reflexivity|].
    unfold unlock, http_post. erewrite fetch_base by done.
    by rewrite <- app_assoc.
  - destruct Hunlock as [-> ->]. reflexivity.
Qed.

Lemma session_client_return c sid :
  ∃ client,
    session_client c sid = Return client
    ∧ __session_id client = sid
    ∧ __timeout client = __timeout c
    ∧ __callbacks client = __callbacks c.
Proof. unfold session_client, BaseClient. eexists. by repeat split. Qed.

(** [session], against an agent that answers the creation call. *)
Lemma session_creates (n : nat)
    (bundle_id arguments environment alert_action : json)
    c d t caps evs d1 cr d2 sid :
  session_capabilities bundle_id arguments environment alert_action
  = Return caps →
  lock_checked c d evs d1 →
  call d1 "POST" (base_url c "session") (session_payload caps) None
  = (Return cr, d2) →
  cr !! "sessionId" = Some sid →
  session (S n) bundle_id arguments environment alert_action
    (mkState c (mkWorld d t)) =
  (session_client c sid,
   mkState c (mkWorld d2
     (t ++ evs ++ [Http (http_request "POST" (base_url c "session")
                           (session_payload caps) None)]))).
Proof.
  intros Hcaps Hlock Hcall Hsid. cbn [session].
  erewrite bind_return by (unfold lift; by rewrite Hcaps).
  erewrite lock_checked_run by done.
  erewrite bind_return;
    [|apply try_except_return; unfold http_post; by apply fetch_base].
  erewrite bind_return by (unfold lift, getattr; by rewrite Hsid).
  erewrite bind_return by reflexivity. cbn [self].
  unfold session_client, lift, bind, ret.
  rewrite <- app_assoc. by destruct (BaseClient _ _).
Qed.

(** Discovery, against an agent that reports no session and then creates
    one. *)
Lemma session_id_creates (n : nat) c d t st st_value d1 evs d2 cr d3 sid :
  truthy (__session_id c) = false →
  call d "GET" (base_url c "status") JNull None = (Return st, d1) →
  st !! "value" = Some (JObj st_value) →
  truthy (dict_get "sessionId" st) = false →
  lock_checked c d1 evs d2 →
  call d2 "POST" (base_url c "session") (session_payload ∅) None
  = (Return cr, d3) →
  cr !! "sessionId" = Some sid →
  truthy sid = true →
  session_id (S (S n)) (mkState c (mkWorld d t)) =
  (Return sid,
   mkState c (mkWorld d3
     (t ++ [Http (http_request "GET" (base_url c "status") JNull None)]
        ++ evs
        ++ [Http (http_request "POST" (base_url c "session")
                    (session_payload ∅) None)]))).
Proof.
  intros Hunbound Hstatus Hvalue Hnone Hlock Hcreate Hsid Htruthy.
  destruct (session_client_return c sid) as (client & Hnew & Hclient & _).
  pose proof (session_creates n JNull JNull JNull JNull c d1
                (t ++ [Http (http_request "GET" (base_url c "status")
                               JNull None)])
                ∅ evs d2 cr d3 sid eq_refl Hlock Hcreate Hsid) as Hsession.
  rewrite Hnew in Hsession.
  remember (S n) as m eqn:Hm. cbn [session_id].
  erewrite bind_return by reflexivity. cbn [self]. rewrite Hunbound.
  erewrite bind_return by (by eapply status_return).
  cbn beta iota zeta. rewrite dict_get_insert, Hnone.
  erewrite bind_return by exact Hsession.
  unfold on. rewrite session_id_cached by (by rewrite Hclient).
  cbn [self world]. rewrite Hclient, <- !app_assoc. reflexivity.
Qed.





(** C3 (as amended): reading [session_id] returns a cached identifier
    without any call; otherwise it probes the status, and a probe that
    reports an identifier binds the client to it, so that the next read
    makes no call, and no session is created; after a probe that reports
    none a session-creation call is made, and when that call answers with an
    identifier it is the only creation call and its identifier is
    returned. *)
Theorem session_id_discovery (n : nat) c d t :
  (truthy (__session_id c) = true →
   session_id n (mkState c (mkWorld d t))
   = (Return (__session_id c), mkState c (mkWorld d t)))
  ∧ (∀ st st_value d1,
       truthy (__session_id c) = false →
       call d "GET" (base_url c "status") JNull None = (Return st, d1) →
       st !! "value" = Some (JObj st_value) →
       truthy (dict_get "sessionId" st) = true →
       let sid := dict_get "sessionId" st in
       let bound :=
         mkState (set_session_id sid c)
           (mkWorld d1
              (t ++ [Http (http_request "GET" (base_url c "status")
                             JNull None)])) in
       session_id (S n) (mkState c (mkWorld d t)) = (Return sid, bound)
       ∧ session_id n bound = (Return sid, bound))
  ∧ (∀ st st_value d1 evs d2 cr d3 sid,
       truthy (__session_id c) = false →
       call d "GET" (base_url c "status") JNull None = (Return st, d1) →
       st !! "value" = Some (JObj st_value) →
       truthy (dict_get "sessionId" st) = false →
       lock_checked c d1 evs d2 →
       call d2 "POST" (base_url c "session") (session_payload ∅) None
       = (Return cr, d3) →
       cr !! "sessionId" = Some sid →
       truthy sid = true →
       session_id (S (S n)) (mkState c (mkWorld d t)) =
       (Return sid,
        mkState c (mkWorld d3
          (t ++ [Http (http_request "GET" (base_url c "status") JNull None)]
             ++ evs
             ++ [Http (http_request "POST" (base_url c "session")
                         (session_payload ∅) None)])))).
Proof.
  split; [|split].
  - apply session_id_cached.
  - intros st st_value d1 Hunbound Hstatus Hvalue Hsome sid bound.
    split; [|by apply session_id_cached].
    cbn [session_id].
    erewrite bind_return by reflexivity. cbn [self]. rewrite Hunbound.
    erewrite bind_return by (by eapply status_return).
    cbn beta iota zeta. rewrite dict_get_insert, Hsome. reflexivity.
  - intros. by eapply session_id_creates.
Qed.

(** ** The receiver of [session] *)

Lemma keeps_self_ret {A} (a : A) : keeps_self (R:=R) (ret a).
Proof. by intros s. Qed.

Lemma keeps_self_raise {A} e : keeps_self (R:=R) (A:=A) (raise e).
Proof. by intros s. Qed.

Lemma keeps_self_exhausted {A} : keeps_self (R:=R) (A:=A) exhausted.
Proof. by intros s. Qed.

Lemma keeps_self_lift {A} (o : Outcome A) : keeps_self (R:=R) (lift o).
Proof. by intros s. Qed.

Lemma keeps_self_get_self : keeps_self (R:=R) get_self.
Proof. by intros s. Qed.

Lemma keeps_self_on {A} c (m : M R A) : keeps_self (on c m).
Proof. intros s. unfold on. by destruct (m _) as [o s']. Qed.

Lemma keeps_self_bind {A B} (m : M R A) (k : A → M R B) :
  keeps_self m → (∀ a, keeps_self (k a)) → keeps_self (bind m k).
Proof.
  intros Hm Hk s. unfold bind. specialize (Hm s).
  destruct (m s) as [[a|e|] s']; cbn in *; try done.
  by rewrite Hk.
Qed.

Lemma keeps_self_try_except {A} (m : M R A) (h : Exn → M R A) :
  keeps_self m → (∀ e, keeps_self (h e)) → keeps_self (try_except m h).
Proof.
  intros Hm Hh s. unfold try_except. specialize (Hm s).
  destruct (m s) as [[a|e|] s']; cbn in *; try done.
  by rewrite Hh.
Qed.

Lemma keeps_self_fetch_base prop (method urlpath : string) (data : json)
    (timeout : option Q) :
  keeps_self (_fetch prop method urlpath data false timeout).
Proof.
  intros [c [d t]]. destruct (call d method (base_url c urlpath) data timeout)
    as [res d'] eqn:Hcall.
  by erewrite fetch_base.
Qed.

Lemma keeps_self_session (n : nat)
    (bundle_id arguments environment alert_action : json) :
  keeps_self (session n bundle_id arguments environment alert_action).
Proof.
  revert bundle_id arguments environment alert_action.
  induction n as [|n IH]; intros bundle_id arguments environment alert_action;
    [apply keeps_self_exhausted|].
  cbn [session].
  repeat first
    [ apply keeps_self_ret | apply keeps_self_raise | apply keeps_self_lift
    | apply keeps_self_get_self | apply keeps_self_on | apply IH
    | apply keeps_self_fetch_base
    | apply keeps_self_bind; [|intros ?]
    | apply keeps_self_try_except; [|intros ?]
    | match goal with |- keeps_self (if ?b then _ else _) => destruct b end ].
Qed.

(** C4 (as amended): when the creation call raises
    [WDAEmptyResponseError], [session] calls [session()] again, without a
    bundle id, and asks the client this gives for the run-state of the
    application.  When the query returns, [session] re-raises the original
    error if and only if the reported state is not 4 (running in the
    foreground), and otherwise returns a new client bound to the identifier
    of the query's response; an error raised by the fallback itself is
    raised in place of the original. *)
Theorem session_empty_response_fallback (n : nat)
    (bundle_id arguments environment alert_action : json)
    c d t caps evs d1 e d2 :
  session_capabilities bundle_id arguments environment alert_action
  = Return caps →
  lock_checked c d evs d1 →
  call d1 "POST" (base_url c "session") (session_payload caps) None
  = (Raise e, d2) →
  exn_class e = WDAEmptyResponseError →
  let s2 :=
    mkState c (mkWorld d2
      (t ++ evs ++ [Http (http_request "POST" (base_url c "session")
                            (session_payload caps) None)])) in
  let fallback : M R (gmap string json) :=
    let* client := session n JNull JNull JNull JNull in
    on client (app_state (session_id n) bundle_id) in
  let run :=
    session (S n) bundle_id arguments environment alert_action
      (mkState c (mkWorld d t)) in
  (∀ res s3 value sid,
     fallback s2 = (Return res, s3) →
     res !! "value" = Some value →
     eq_4 value = true →
     res !! "sessionId" = Some sid →
     run = (session_client c sid, s3))
  ∧ (∀ res s3 value,
       fallback s2 = (Return res, s3) →
       res !! "value" = Some value →
       eq_4 value = false →
       run = (Raise e, s3))
  ∧ (∀ e' s3, fallback s2 = (Raise e', s3) → run = (Raise e', s3)).
Proof.
  intros Hcaps Hlock Hcall Hclass s2 fallback run.
  assert (isinstance e WDAEmptyResponseError = true) as Hempty
    by (unfold isinstance; by rewrite Hclass).
  assert (∀ s3, fst (fallback s2) ≠ Exhausted → snd (fallback s2) = s3 →
                self s3 = c) as Hself.
  { intros s3 _ <-. unfold fallback.
    rewrite (keeps_self_bind _ _ (keeps_self_session n _ _ _ _)
               (λ client, keeps_self_on client _)).
    reflexivity. }
  assert (run =
          bind (bind fallback (λ res,
                  let* value := lift (getattr res "value") in
                  if negb (eq_4 value) then raise e else ret res))
               (λ res,
                  let* sid := lift (getattr res "sessionId") in
                  let* c := get_self in
                  let* client := lift (BaseClient (Some (__wda_url c)) sid) in
                  ret (mkClient (__wda_url client) (__session_id client)
                                (__timeout c) (__callbacks c))) s2) as ->.
  { unfold run. cbn [session].
    erewrite bind_return by (unfold lift; by rewrite Hcaps).
    erewrite lock_checked_run by done.
    unfold bind at 1. unfold try_except at 1. unfold http_post.
    erewrite fetch_base by done. cbn beta iota.
    rewrite Hempty, <- app_assoc. fold s2.
    unfold fallback, bind.
    by destruct (session n JNull JNull JNull JNull s2) as [[client|e'|] s3]. }
  split; [|split].
  - intros res s3 value sid Hfallback Hvalue Hfour Hsid.
    specialize (Hself s3). rewrite Hfallback in Hself.
    specialize (Hself ltac:(done) eq_refl).
    unfold bind at 1 2. rewrite Hfallback.
    unfold lift, getattr, bind. rewrite Hvalue, Hfour. cbn.
    rewrite Hsid. unfold get_self, session_client, ret. by rewrite Hself.
  - intros res s3 value Hfallback Hvalue Hfour.
    unfold bind at 1 2. rewrite Hfallback.
    unfold lift, getattr, bind. by rewrite Hvalue, Hfour.
  - intros e' s3 Hfallback. unfold bind at 1 2. by rewrite Hfallback.
Qed.

(** ** The retry policy *)

Lemma retry_exhausted (exc : ExnClass) (k : nat) (delay jitter : Q)
    (f : M R json) s s' :
  f s = (Exhausted, s') →
  retry exc (S k) delay jitter f s = (Exhausted, s').
Proof. intros Hf. cbn. unfold try_except. by rewrite Hf. Qed.

(** The decorator with [tries=3] is the policy of three attempts, the second
    delay being the first one times the backoff of 1 plus the jitter. *)
Lemma retry_three (exc : ExnClass) (delay jitter delay1 delay2 : Q)
    (f : M R json) :
  Qred delay1 = Qred delay →
  Qred delay2 = Qred (delay * 1 + jitter) →
  retries_thrice exc delay1 delay2 f (retry exc 3 delay jitter f).
Proof.
  intros Hdelay1 Hdelay2 s.
  assert (∀ s', slept delay1 s' = slept delay s') as Hslept
    by (intros s'; unfold slept; by rewrite Hdelay1).
  destruct (f s) as [[a|e1|] s1] eqn:Hf1.
  - by apply retry_return.
  - destruct (isinstance e1 exc) eqn:He1; [|by apply retry_other].
    rewrite (retry_again _ _ _ _ _ _ e1 s1), Hslept by done.
    destruct (f (slept delay s1)) as [[a|e2|] s2] eqn:Hf2.
    + by apply retry_return.
    + destruct (isinstance e2 exc) eqn:He2; [|by apply retry_other].
      rewrite (retry_again _ _ _ _ _ _ e2 s2) by done.
      rewrite retry_last. unfold slept. by rewrite Hdelay2.
    + by apply retry_exhausted.
  - by apply retry_exhausted.
Qed.

(** One attempt of [send_keys] by a bound client is one POST. *)
Lemma send_keys_once_bound (n : nat) (value : json) c d t res d' :
  truthy (__session_id c) = true →
  let data :=
    JObj {[ "value" := match value with
                       | JStr s => JList (JStr <$> code_points s)
                       | _ => value
                       end ]} in
  call d "POST" (session_url c (__session_id c) "wda/keys") data None
  = (res, d') →
  send_keys_once (session_id n) value (mkState c (mkWorld d t)) =
  (match res with
   | Return r => Return (JObj r)
   | Raise e => Raise e
   | Exhausted => Exhausted
   end,
   mkState c (mkWorld d'
     (t ++ [Http (http_request "POST"
                    (session_url c (__session_id c) "wda/keys") data None)]))).
Proof.
  intros Hbound data Hcall. unfold send_keys_once, _session_http_post, bind.
  erewrite fetch_bound by done. by destruct res.
Qed.

Lemma one_request_base prop c (method urlpath : string) (data : json) :
  one_request c method (base_url c urlpath) data
    (_fetch prop method urlpath data false None).
Proof.
  intros d t.
  destruct (call d method (base_url c urlpath) data None) as [res d'] eqn:Hcall.
  by erewrite fetch_base.
Qed.

Lemma one_request_bound (n : nat) c (method urlpath : string) (data : json) :
  truthy (__session_id c) = true →
  one_request c method (session_url c (__session_id c) urlpath) data
    (_fetch (session_id n) method urlpath data true None).
Proof.
  intros Hbound d t.
  destruct (call d method (session_url c (__session_id c) urlpath) data None)
    as [res d'] eqn:Hcall.
  by erewrite fetch_bound.
Qed.

(** C2 (as amended): the retry decorator wraps exactly [status] (on
    [WDAEmptyResponseError], three attempts, 2 seconds apart), [app_current]
    (on [WDAUnknownError], three attempts, after 0.5 and then 0.7 seconds)
    and [send_keys] (on [WDAKeyboardNotPresentError], three attempts, 1
    second apart); an error of another kind ends the call at once and the
    error of the third attempt is raised as it is, so that [send_keys]
    against an agent that always answers with the keyboard error raises it
    after exactly three requests.  The plain wrappers ([healthcheck],
    [lock], [unlock], [app_activate], [app_terminate], [app_state]) make one
    request and let its error through; [tap], however, repeats its request
    once, on the path [wda/tap/0], after an error of any kind. *)
Theorem retry_policy (n : nat) :
  let prop := session_id n in
  retries_thrice WDAEmptyResponseError 2 2 (status_once prop) (status prop)
  ∧ retries_thrice WDAUnknownError 0.5 0.7
      (app_current_once prop) (app_current prop)
  ∧ (∀ value,
       retries_thrice WDAKeyboardNotPresentError 1 1
         (send_keys_once prop value) (send_keys prop value))
  ∧ (∀ c d t value o e,
       truthy (__session_id c) = true →
       (∀ d' rq, (respond d' rq).1 = o) →
       let data :=
         JObj {[ "value" := match value with
                            | JStr s => JList (JStr <$> code_points s)
                            | _ => value
                            end ]} in
       let url := session_url c (__session_id c) "wda/keys" in
       let post := Http (http_request "POST" url data None) in
       _fetch_decode "POST" url data o = Raise e →
       exn_class e = WDAKeyboardNotPresentError →
       let run := send_keys prop value (mkState c (mkWorld d t)) in
       run.1 = Raise e
       ∧ trace (world run.2)
         = (t ++ [post; Sleep 1; post; Sleep 1; post])%list)
  ∧ (∀ c d t x y e d1 res d2,
       truthy (__session_id c) = true →
       let data := JObj {[ "x" := x; "y" := y ]} in
       let url := session_url c (__session_id c) "wda/tap" in
       let url0 := session_url c (__session_id c) "wda/tap/0" in
       call d "POST" url data None = (Raise e, d1) →
       call d1 "POST" url0 data None = (res, d2) →
       tap prop x y (mkState c (mkWorld d t)) =
       (res, mkState c (mkWorld d2
               (t ++ [Http (http_request "POST" url data None);
                      Http (http_request "POST" url0 data None)]))))
  ∧ (∀ c,
       one_request c "GET" (base_url c "wda/healthcheck") JNull
         (healthcheck prop)
       ∧ one_request c "POST" (base_url c "wda/lock") JNull (lock prop)
       ∧ one_request c "POST" (base_url c "wda/unlock") JNull (unlock prop))
  ∧ (∀ c bundle_id,
       truthy (__session_id c) = true →
       let data := JObj {[ "bundleId" := bundle_id ]} in
       let url path := session_url c (__session_id c) path in
       one_request c "POST" (url "wda/apps/activate") data
         (app_activate prop bundle_id)
       ∧ one_request c "POST" (url "wda/apps/terminate") data
           (app_terminate prop bundle_id)
       ∧ one_request c "POST" (url "wda/apps/state") data
           (app_state prop bundle_id)).
Proof.
  intros prop. subst prop.
  split; [|split; [|split; [|split; [|split; [|split]]]]].
  - by apply retry_three.
  - by apply retry_three.
  - intros value. by apply retry_three.
  - intros c d t value o e Hbound Halways data url post Hdecode Hclass run.
    assert (∀ d0 t0,
      send_keys_once (session_id n) value (mkState c (mkWorld d0 t0)) =
      (Raise e, mkState c (mkWorld (respond d0 (http_request "POST" url data
                                                  None)).2
                             (t0 ++ [post])))) as Hattempt.
    { intros d0 t0.
      pose proof (Halways d0 (http_request "POST" url data None)) as Ho.
      destruct (respond d0 (http_request "POST" url data None))
        as [o' d0'] eqn:Hr.
      cbn in Ho. subst o'.
      erewrite send_keys_once_bound;
        [|done|unfold call; fold data url; by rewrite Hr].
      by rewrite Hdecode. }
    assert (isinstance e WDAKeyboardNotPresentError = true) as He
      by (unfold isinstance; by rewrite Hclass).
    unfold run, send_keys.
    rewrite (retry_again _ _ _ _ _ _ e _ (Hattempt d t) He).
    unfold slept; cbn [self world device trace].
    rewrite (retry_again _ _ _ _ _ _ e _ (Hattempt _ _) He).
    unfold slept; cbn [self world device trace].
    rewrite retry_last, Hattempt. cbn [fst snd world trace].
    split; [reflexivity|]. by rewrite <- !app_assoc.
  - intros c d t x y e d1 res d2 Hbound data url url0 Hfirst Hsecond.
    unfold tap, _session_http_post.
    erewrite try_except_raise by (by apply fetch_bound).
    erewrite fetch_bound by done. by rewrite <- app_assoc.
  - intros c. repeat split; apply one_request_base.
  - intros c bundle_id Hbound data url.
    repeat split; by apply one_request_bound.
Qed.

(** ** The alert watcher *)

(** Membership of a name in a list of labels. *)
Lemma py_in_labels (name : string) (labels : list json) :
  ∃ found, py_in name (JList labels) = Return found
           ∧ (found = true ↔ JStr name ∈ labels).
Proof.
  eexists. split; [reflexivity|].
  induction labels as [|x labels IH]; cbn [existsb].
  - split; [done|]. by intros ?%elem_of_nil.
  - rewrite orb_true_iff, IH, elem_of_cons. split.
    + intros [Hx|?]; [left|by right].
      destruct x; try done. apply String.eqb_eq in Hx. by subst.
    + intros [<-|?]; [left|by right]. apply String.eqb_refl.
Qed.



(** The poll of a bound client. *)
Lemma inner_try_bound (n : nat) (buttons : list string) c d t r value d1 :
  truthy (__session_id c) = true →
  call d "GET" (session_url c (__session_id c) "wda/alert/buttons") JNull None
  = (Return r, d1) →
  r !! "value" = Some value →
  _inner_try (session_id n) buttons (mkState c (mkWorld d t)) =
  _inner_click (session_id n) buttons value
    (mkState c (mkWorld d1
       (t ++ [Http (http_request "GET"
                      (session_url c (__session_id c) "wda/alert/buttons")
                      JNull None);
              Log "info" "Alert detected, buttons: %s" [value]]))).
Proof.
  intros Hbound Hcall Hvalue. unfold _inner_try, Alert_buttons.
  erewrite bind_return.
  2:{ unfold _session_http_get. erewrite bind_return by (by apply fetch_bound).
      unfold lift, getattr. by rewrite Hvalue. }
  unfold bind, log, emit. cbn [self world device trace].
  by rewrite <- app_assoc.
Qed.


(** ** The callback registry *)

(** C9 (as amended): no handler of the callback registry is invoked by a
    request: the constructor creates the registry empty, and [_fetch] does
    not read it, so that, whatever is registered under the before-request,
    after-request and on-error names, the request leaves nothing in the
    trace but the HTTP call, and its outcome and its effect on the agent are
    the same. *)
Theorem fetch_ignores_callbacks (n : nat) (method urlpath : string)
    (data : json) (with_session : bool) (timeout : option Q)
    c d t (registry : gmap string (list string)) :
  (with_session = true → truthy (__session_id c) = true) →
  let c' := mkClient (__wda_url c) (__session_id c) (__timeout c) registry in
  let run self :=
    _fetch (session_id n) method urlpath data with_session timeout
      (mkState self (mkWorld d t)) in
  (∃ rq, trace (world (run c').2) = (t ++ [Http rq])%list)
  ∧ (∀ event handler,
       Invoke event handler ∈ trace (world (run c').2) →
       Invoke event handler ∈ t)
  ∧ (run c').1 = (run c).1
  ∧ world (run c').2 = world (run c).2
  ∧ self (run c').2 = c'
  ∧ (∀ url sid client,
       BaseClient url sid = Return client → __callbacks client = ∅).
Proof.
  intros Hbound c' run.
  assert (∃ url res d',
            run c' = (res, mkState c' (mkWorld d'
                        (t ++ [Http (http_request method url data timeout)])))
            ∧ run c = (res, mkState c (mkWorld d'
                        (t ++ [Http (http_request method url data timeout)]))))
    as (url & res & d' & Hc' & Hc).
  { unfold run. destruct with_session.
    - destruct (call d method (session_url c (__session_id c) urlpath)
                  data timeout) as [res d'] eqn:Hcall.
      exists (session_url c (__session_id c) urlpath), res, d'. split.
      + by erewrite fetch_bound; [|by apply Hbound|exact Hcall].
      + by erewrite fetch_bound; [|by apply Hbound|exact Hcall].
    - destruct (call d method (base_url c urlpath) data timeout)
        as [res d'] eqn:Hcall.
      exists (base_url c urlpath), res, d'. split.
      + by erewrite fetch_base; [|exact Hcall].
      + by erewrite fetch_base; [|exact Hcall]. }
  rewrite Hc', Hc. cbn [fst snd self world trace].
  split; [by eexists|]. split; [|repeat split].
  - intros event handler [?|Hin]%elem_of_app; [done|].
    apply list_elem_of_singleton in Hin. discriminate.
  - intros [url'|] sid client; [|done]. by intros [= <-].
Qed.

End Facts.

(** * Further properties of the module *)

Section Further.
Context `{!Externals} {R : Type} `{!Remote R}.
Implicit Types (c : Client) (d : R) (t : list Event) (s : State R).
Implicit Types (e : Exn) (prop : M R json).

Lemma bind_inv_return {A B} (m : M R A) (k : A → M R B) s b s' :
  bind m k s = (Return b, s') →
  ∃ a s1, m s = (Return a, s1) ∧ k a s1 = (Return b, s').
Proof.
  unfold bind. destruct (m s) as [[a|e|] s1]; try done. by exists a, s1.
Qed.

Lemma fetch_decode_not_exhausted (method url : string) (data : json)
    (o : HttpOutcome) :
  _fetch_decode method url data o ≠ Exhausted.
Proof.
  unfold _fetch_decode. destruct o as [msg|status_code text decoded]; [done|].
  destruct (status_code =? 502)%Z; [done|]. destruct (blank text); [done|].
  destruct decoded as [[]|]; try done.
  unfold getattr. destruct (convert _ !! "value") as [[]|]; try done.
  destruct (truthy _); [|done]. by destruct (find _ _).
Qed.

Lemma call_not_exhausted d (method url : string) (data : json)
    (timeout : option Q) :
  (call d method url data timeout).1 ≠ Exhausted.
Proof.
  unfold call. destruct (respond d _) as [o d']. cbn.
  apply fetch_decode_not_exhausted.
Qed.

(** A request that is not session-scoped, with a timeout. *)
Lemma fetch_base_call prop (method urlpath : string) (data : json)
    (timeout : option Q) c d t :
  _fetch prop method urlpath data false timeout (mkState c (mkWorld d t)) =
  ((call d method (base_url c urlpath) data timeout).1,
   mkState c (mkWorld (call d method (base_url c urlpath) data timeout).2
     (t ++ [Http (http_request method (base_url c urlpath) data timeout)]))).
Proof.
  destruct (call d method (base_url c urlpath) data timeout)
    as [res d'] eqn:Hcall.
  by erewrite fetch_base.
Qed.

(** A session-scoped request of a bound client. *)
Lemma fetch_bound_call (n : nat) (method urlpath : string) (data : json)
    (timeout : option Q) c d t :
  truthy (__session_id c) = true →
  _fetch (session_id n) method urlpath data true timeout
    (mkState c (mkWorld d t)) =
  ((call d method (session_url c (__session_id c) urlpath) data timeout).1,
   mkState c (mkWorld
     (call d method (session_url c (__session_id c) urlpath) data timeout).2
     (t ++ [Http (http_request method
                    (session_url c (__session_id c) urlpath) data timeout)]))).
Proof.
  intros Hbound.
  destruct (call d method (session_url c (__session_id c) urlpath) data timeout)
    as [res d'] eqn:Hcall.
  by erewrite fetch_bound.
Qed.

(** ** What [_fetch] returns *)

(** X1: an envelope that [_fetch] returns comes from a response other than
    502 whose body is not blank and decodes to a mapping; it is that mapping
    with [status] set to 0 if it had none, it has a [value], and a [value]
    that is a mapping has no truthy [error]. *)
Theorem fetch_returns_clean_envelope (method url : string) (data : json)
    (o : HttpOutcome) (r : gmap string json) :
  _fetch_decode method url data o = Return r →
  ∃ status_code text retjson value,
    o = HttpResponse status_code text (Some (JObj retjson))
    ∧ status_code ≠ 502%Z
    ∧ blank text = false
    ∧ r !! "status" = Some (default (JInt 0) (retjson !! "status"))
    ∧ (∀ k, k ≠ "status" → r !! k = retjson !! k)
    ∧ r !! "value" = Some value
    ∧ (∀ m, value = JObj m → truthy (dict_get "error" m) = false).
Proof.
  unfold _fetch_decode. destruct o as [msg|status_code text decoded]; [done|].
  destruct (Z.eqb_spec status_code 502) as [|Hcode]; [done|].
  destruct (blank text) eqn:Hblank; [done|].
  destruct decoded as [[| | | | | |retjson]|]; try done.
  unfold getattr, convert.
  destruct (setdefault "status" (JInt 0) retjson !! "value")
    as [value|] eqn:Hvalue; [|done].
  intros Hreturn.
  assert (r = setdefault "status" (JInt 0) retjson
          ∧ ∀ m, value = JObj m → truthy (dict_get "error" m) = false)
    as [-> Hclean].
  { destruct value as [| | | | | |m]; try (injection Hreturn as <-; by split).
    destruct (truthy (dict_get "error" m)) eqn:Herror.
    - by destruct (find _ _).
    - injection Hreturn as <-. split; [done|]. by intros ? [= <-]. }
  exists status_code, text, retjson, value. repeat split; try done.
  - unfold setdefault. destruct (retjson !! "status") as [x|] eqn:Hstatus.
    + by rewrite Hstatus.
    + by rewrite lookup_insert_eq.
  - intros k Hk. by apply setdefault_other.
Qed.

(** ** [is_ready] *)

(** X2: [is_ready] never raises: it makes one GET of [status] with a timeout
    of 3 seconds, and returns [True] if the request returns and [False] if
    it raises, whatever the error. *)
Theorem is_ready_never_raises prop c d t :
  is_ready prop (mkState c (mkWorld d t)) =
  (Return (match (call d "GET" (base_url c "status") JNull (Some 3%Q)).1 with
           | Return _ => true
           | _ => false
           end),
   mkState c (mkWorld (call d "GET" (base_url c "status") JNull (Some 3%Q)).2
     (t ++ [Http (http_request "GET" (base_url c "status") JNull
                    (Some 3%Q))]))).
Proof.
  unfold is_ready, try_except, http_get, bind. rewrite fetch_base_call.
  pose proof (call_not_exhausted d "GET" (base_url c "status") JNull
                (Some 3%Q)) as Hcall.
  by destruct (call d "GET" (base_url c "status") JNull (Some 3%Q)).1.
Qed.

(** ** [status] *)

Lemma status_once_raise prop c d t e d1 :
  call d "GET" (base_url c "status") JNull None = (Raise e, d1) →
  status_once prop (mkState c (mkWorld d t)) =
  (Raise e,
   mkState c (mkWorld d1
     (t ++ [Http (http_request "GET" (base_url c "status") JNull None)]))).
Proof.
  intros Hcall. unfold status_once, http_get.
  apply bind_raise. by apply fetch_base.
Qed.

(** X3: [status] against an agent that answers twice with an empty body and
    then with an envelope returns the value of that envelope, after three
    requests with a sleep of 2 seconds after each of the first two. *)
Theorem status_retries_empty_responses prop c d t e1 d1 e2 d2 st st_value d3 :
  call d "GET" (base_url c "status") JNull None = (Raise e1, d1) →
  exn_class e1 = WDAEmptyResponseError →
  call d1 "GET" (base_url c "status") JNull None = (Raise e2, d2) →
  exn_class e2 = WDAEmptyResponseError →
  call d2 "GET" (base_url c "status") JNull None = (Return st, d3) →
  st !! "value" = Some (JObj st_value) →
  status prop (mkState c (mkWorld d t)) =
  (Return (JObj (<["sessionId" := dict_get "sessionId" st]> st_value)),
   mkState c (mkWorld d3
     (t ++ [ Http (http_request "GET" (base_url c "status") JNull None);
             Sleep 2;
             Http (http_request "GET" (base_url c "status") JNull None);
             Sleep 2;
             Http (http_request "GET" (base_url c "status") JNull None) ]))).
Proof.
  intros Hfirst He1 Hsecond He2 Hthird Hvalue. unfold status.
  erewrite retry_again;
    [|by apply status_once_raise|unfold isinstance; by rewrite He1].
  unfold slept; cbn [self world device trace].
  erewrite retry_again;
    [|by apply status_once_raise|unfold isinstance; by rewrite He2].
  unfold slept; cbn [self world device trace].
  rewrite retry_last. erewrite status_once_return by done.
  by rewrite <- !app_assoc.
Qed.

(** X4: what [status] returns is the [value] of the envelope with its
    [sessionId] replaced by the one of the envelope ([None] when the
    envelope has none), the other entries being kept; when the [value] is
    not a mapping, [status] raises [TypeError] after its one request. *)
Theorem status_carries_envelope_session prop c d t st d1 :
  call d "GET" (base_url c "status") JNull None = (Return st, d1) →
  let after :=
    mkState c (mkWorld d1
      (t ++ [Http (http_request "GET" (base_url c "status") JNull None)])) in
  (∀ st_value,
     st !! "value" = Some (JObj st_value) →
     ∃ m, status prop (mkState c (mkWorld d t)) = (Return (JObj m), after)
          ∧ m !! "sessionId" = Some (default JNull (st !! "sessionId"))
          ∧ ∀ k, k ≠ "sessionId" → m !! k = st_value !! k)
  ∧ (∀ x,
       st !! "value" = Some x →
       (∀ st_value, x ≠ JObj st_value) →
       status prop (mkState c (mkWorld d t))
       = (Raise (mkExn TypeError []), after)).
Proof.
  intros Hcall after. split.
  - intros st_value Hvalue. eexists. split; [by apply status_return|].
    split; [by rewrite lookup_insert_eq|].
    intros k Hk. by rewrite lookup_insert_ne.
  - intros x Hvalue Hx. unfold status. apply retry_other; [|done].
    unfold status_once, http_get.
    erewrite bind_return by (by apply fetch_base). rewrite Hvalue.
    destruct x; try done. by destruct (Hx m).
Qed.

(** ** The arguments of [session] *)

(** X5: with a bundle id and an alert action that is neither "accept" nor
    "dismiss", [session] raises [AssertionError] before it makes any
    request; without a bundle id the other arguments are not looked at, and
    the call is the one without them. *)
Theorem session_asserts_alert_action (n : nat)
    (bundle_id arguments environment alert_action : json) s :
  (truthy bundle_id = true →
   truthy alert_action = true →
   is_alert_action alert_action = false →
   session (S n) bundle_id arguments environment alert_action s
   = (Raise (mkExn AssertionError []), s))
  ∧ (truthy bundle_id = false →
     session_payload ∅
     = JObj {[ "capabilities" := JObj ∅; "desiredCapabilities" := JObj ∅ ]}
     ∧ session (S n) bundle_id arguments environment alert_action s
       = session (S n) bundle_id JNull JNull JNull s).
Proof.
  split.
  - intros Hbundle Haction Hbad. cbn [session].
    apply bind_raise. unfold lift, session_capabilities.
    by rewrite Hbundle, Haction, Hbad.
  - intros Hbundle. split; [reflexivity|]. cbn [session].
    unfold session_capabilities. by rewrite Hbundle.
Qed.

(** ** The receiver and the result of [session] and [session_id] *)

Lemma keeps_self_emit (ev : Event) : keeps_self (R:=R) (emit ev).
Proof. by intros s. Qed.

Lemma keeps_self_retry (exc : ExnClass) (k : nat) (delay jitter : Q)
    (f : M R json) :
  keeps_self f → keeps_self (retry exc k delay jitter f).
Proof.
  intros Hf. revert delay.
  induction k as [|k IH]; intros delay; cbn [retry]; [apply keeps_self_ret|].
  apply keeps_self_try_except; [done|]. intros e.
  destruct (isinstance e exc); [|apply keeps_self_raise].
  destruct k; [apply keeps_self_raise|].
  apply keeps_self_bind; [apply keeps_self_emit|]. intros _. apply IH.
Qed.

Lemma keeps_self_status prop : keeps_self (status prop).
Proof.
  apply keeps_self_retry. unfold status_once, http_get.
  apply keeps_self_bind; [apply keeps_self_fetch_base|]. intros res.
  destruct (res !! "value") as [[]|];
    first [apply keeps_self_ret|apply keeps_self_raise].
Qed.

Lemma BaseClient_url (url : string) (sid : json) :
  ∃ u, BaseClient (Some url) sid = Return (mkClient (geturl u) sid 30.0 ∅)
       ∧ endswith u "/" = true
       ∧ (u = url ∨ u = url ++ "/").
Proof.
  unfold BaseClient. destruct (endswith url "/") eqn:Hurl; cbn [negb].
  - exists url. by repeat split; [|left].
  - exists (url ++ "/"). repeat split; [apply endswith_app_slash|by right].
Qed.

(** X6: [session] leaves the client it is called on as it was, whether it
    returns or raises; the client it returns is made from the URL of the
    receiver (that URL, with the separator appended when it does not end in
    it, handed to the parser) and has the timeout and the callback registry
    of the receiver. *)
Theorem session_leaves_receiver (n : nat)
    (bundle_id arguments environment alert_action : json) s :
  self (session n bundle_id arguments environment alert_action s).2 = self s
  ∧ ∀ client s',
      session n bundle_id arguments environment alert_action s
      = (Return client, s') →
      let url := __wda_url (self s) in
      __wda_url client
      = geturl (if endswith url "/" then url else url ++ "/")
      ∧ __timeout client = __timeout (self s)
      ∧ __callbacks client = __callbacks (self s).
Proof.
  split; [apply keeps_self_session|].
  intros client s' Hsession url.
  pose proof (keeps_self_session n bundle_id arguments environment
                alert_action s) as Hself.
  rewrite Hsession in Hself. cbn [snd] in Hself.
  destruct n as [|n]; [done|]. cbn [session] in Hsession.
  apply bind_inv_return in Hsession as (caps & s1 & _ & Hsession).
  apply bind_inv_return in Hsession as (lv & s2 & _ & Hsession).
  apply bind_inv_return in Hsession as (? & s3 & _ & Hsession).
  apply bind_inv_return in Hsession as (res & s4 & _ & Hsession).
  apply bind_inv_return in Hsession as (sid & s5 & Hsid & Hsession).
  apply bind_inv_return in Hsession as (c & s6 & Hc & Hsession).
  apply bind_inv_return in Hsession as (built & s7 & Hbuilt & Hsession).
  unfold get_self in Hc. injection Hc as <- <-.
  unfold lift in Hbuilt. injection Hbuilt as Hbuilt <-.
  unfold ret in Hsession. injection Hsession as <- <-.
  rewrite Hself in Hbuilt |- *. unfold BaseClient in Hbuilt.
  cbv zeta in Hbuilt. subst built.
  cbn [__timeout __callbacks __wda_url]. subst url.
  by destruct (endswith (__wda_url (self s)) "/").
Qed.

Lemma keeps_self_eq {A} (m : M R A) s o s' :
  keeps_self m → m s = (o, s') → self s' = self s.
Proof. intros Hm Heq. specialize (Hm s). by rewrite Heq in Hm. Qed.

(** One step of [session_id], for a client whose slot is empty. *)
Lemma session_id_unbound (n : nat) s :
  truthy (__session_id (self s)) = false →
  session_id (S n) s =
  (let* st := status (session_id n) in
   let current_sid :=
     match st with JObj d => dict_get "sessionId" d | _ => JNull end in
   if truthy current_sid then
     set_self (set_session_id current_sid (self s)) >> ret current_sid
   else
     let* client := session n JNull JNull JNull JNull in
     on client (session_id n)) s.
Proof.
  intros Hslot. cbn [session_id]. unfold bind at 1. unfold get_self at 1.
  cbn beta iota. by rewrite Hslot.
Qed.

(** X7: an identifier that [session_id] returns is never empty; reading it
    changes nothing of the client but, when the slot was empty and the
    status probe reported an identifier, the slot, which then holds the
    identifier returned. *)
Theorem session_id_returns_an_identifier (n : nat) s v s' :
  session_id n s = (Return v, s') →
  truthy v = true
  ∧ (self s' = self s
     ∨ (truthy (__session_id (self s)) = false
        ∧ self s' = set_session_id v (self s))).
Proof.
  revert s v s'. induction n as [|n IH]; intros s v s' Hread.
  - cbn [session_id] in Hread. unfold bind, get_self in Hread.
    destruct (truthy (__session_id (self s))) eqn:Hslot; [|done].
    injection Hread as <- <-. split; [done|by left].
  - destruct (truthy (__session_id (self s))) eqn:Hslot.
    { destruct s as [c w]. rewrite session_id_cached in Hread by done.
      injection Hread as <- <-. split; [done|by left]. }
    rewrite session_id_unbound in Hread by done.
    apply bind_inv_return in Hread as (st & s1 & Hstatus & Hread).
    apply (keeps_self_eq _ _ _ _ (keeps_self_status _)) in Hstatus as Hself1.
    cbn zeta in Hread.
    destruct (truthy match st with
                     | JObj d0 => dict_get "sessionId" d0
                     | _ => JNull
                     end) eqn:Hprobe.
    { unfold bind, set_self, ret in Hread. injection Hread as <- <-.
      split; [done|]. right. by split. }
    apply bind_inv_return in Hread as (client & s2 & Hsession & Hread).
    apply (keeps_self_eq _ _ _ _ (keeps_self_session _ _ _ _ _))
      in Hsession as Hself2.
    unfold on in Hread.
    destruct (session_id n (mkState client (world s2))) as [o s3] eqn:Hrec.
    injection Hread as -> <-.
    apply IH in Hrec as [Htruthy _]. split; [done|]. left.
    cbn [self]. by rewrite Hself2, Hself1.
Qed.

(** ** Errors on the way to a new session *)

(** X8: when the lock query of [session] fails, or the device is locked and
    the unlock fails, [session] raises that error and makes no creation
    call. *)
Theorem session_stops_at_lock_failure (n : nat)
    (bundle_id arguments environment alert_action : json) c d t caps :
  session_capabilities bundle_id arguments environment alert_action
  = Return caps →
  let run :=
    session (S n) bundle_id arguments environment alert_action
      (mkState c (mkWorld d t)) in
  let query :=
    Http (http_request "GET" (base_url c "wda/locked") JNull None) in
  let unlocking :=
    Http (http_request "POST" (base_url c "wda/unlock") JNull None) in
  (∀ e d1,
     call d "GET" (base_url c "wda/locked") JNull None = (Raise e, d1) →
     run = (Raise e, mkState c (mkWorld d1 (t ++ [query]))))
  ∧ (∀ lk lv d1 e d2,
       call d "GET" (base_url c "wda/locked") JNull None = (Return lk, d1) →
       lk !! "value" = Some lv →
       truthy lv = true →
       call d1 "POST" (base_url c "wda/unlock") JNull None = (Raise e, d2) →
       run = (Raise e, mkState c (mkWorld d2 (t ++ [query; unlocking])))).
Proof.
  intros Hcaps run query unlocking. subst run query unlocking. split.
  - intros e d1 Hquery. cbn [session].
    erewrite bind_return by (unfold lift; by rewrite Hcaps).
    apply bind_raise. unfold locked, http_get.
    apply bind_raise. by apply fetch_base.
  - intros lk lv d1 e d2 Hquery Hvalue Hlocked Hunlock. cbn [session].
    erewrite bind_return by (unfold lift; by rewrite Hcaps).
    erewrite bind_return by (by eapply locked_return).
    rewrite Hlocked. apply bind_raise. apply bind_raise.
    unfold unlock, http_post. erewrite fetch_base by done.
    by rewrite <- app_assoc.
Qed.

(** X9: an error of the creation call that is not an empty response is
    raised by [session] as it is, with no fallback: the creation call is the
    last request made. *)
Theorem session_propagates_other_errors (n : nat)
    (bundle_id arguments environment alert_action : json)
    c d t caps evs d1 e d2 :
  session_capabilities bundle_id arguments environment alert_action
  = Return caps →
  lock_checked c d evs d1 →
  call d1 "POST" (base_url c "session") (session_payload caps) None
  = (Raise e, d2) →
  exn_class e ≠ WDAEmptyResponseError →
  session (S n) bundle_id arguments environment alert_action
    (mkState c (mkWorld d t)) =
  (Raise e,
   mkState c (mkWorld d2
     (t ++ evs ++ [Http (http_request "POST" (base_url c "session")
                           (session_payload caps) None)]))).
Proof.
  intros Hcaps Hlock Hcall Hclass.
  assert (isinstance e WDAEmptyResponseError = false) as Hother
    by (unfold isinstance; by destruct (exn_class e)).
  cbn [session].
  erewrite bind_return by (unfold lift; by rewrite Hcaps).
  erewrite lock_checked_run by done.
  apply bind_raise. unfold try_except at 1. unfold http_post.
  erewrite fetch_base by done. cbn beta iota.
  by rewrite Hother, <- app_assoc.
Qed.

(** ** [Alert.click], [Alert.click_exists], [Alert.exists] *)

(** An envelope that [_fetch] returns has a [value]. *)
Lemma call_return_value d (method url : string) (data : json)
    (timeout : option Q) r d' :
  call d method url data timeout = (Return r, d') → is_Some (r !! "value").
Proof.
  unfold call. destruct (respond d _) as [o d'']. intros [= Hdecode _].
  unfold _fetch_decode in Hdecode.
  destruct o as [msg|status_code text decoded]; [done|].
  destruct (status_code =? 502)%Z; [done|]. destruct (blank text); [done|].
  destruct decoded as [[| | | | | |retjson]|]; try done.
  unfold getattr, convert in Hdecode.
  destruct (setdefault "status" (JInt 0) retjson !! "value")
    as [value|] eqn:Hvalue; [|done].
  assert (r = setdefault "status" (JInt 0) retjson) as ->.
  { destruct value; try by injection Hdecode.
    destruct (truthy _); [by destruct (find _ _)|by injection Hdecode]. }
  by rewrite Hvalue.
Qed.

Lemma alert_buttons_bound (n : nat) c d t :
  truthy (__session_id c) = true →
  let url := session_url c (__session_id c) "wda/alert/buttons" in
  Alert_buttons (session_id n) (mkState c (mkWorld d t)) =
  (match (call d "GET" url JNull None).1 with
   | Return r => getattr r "value"
   | Raise e => Raise e
   | Exhausted => Exhausted
   end,
   mkState c (mkWorld (call d "GET" url JNull None).2
     (t ++ [Http (http_request "GET" url JNull None)]))).
Proof.
  intros Hbound url. unfold Alert_buttons, _session_http_get, bind.
  rewrite fetch_bound_call by done. fold url.
  by destruct (call d "GET" url JNull None).1.
Qed.

Lemma alert_click_name_bound (n : nat) (name : string) c d t :
  truthy (__session_id c) = true →
  let url := session_url c (__session_id c) "alert/accept" in
  let data := JObj {[ "name" := JStr name ]} in
  Alert_click_name (session_id n) name (mkState c (mkWorld d t)) =
  (match (call d "POST" url data None).1 with
   | Return _ => Return (JStr name)
   | Raise e => Raise e
   | Exhausted => Exhausted
   end,
   mkState c (mkWorld (call d "POST" url data None).2
     (t ++ [Http (http_request "POST" url data None)]))).
Proof.
  intros Hbound url data. unfold Alert_click_name, _session_http_post, bind.
  rewrite fetch_bound_call by done. fold url data.
  by destruct (call d "POST" url data None).1.
Qed.

Lemma alert_click_first_skip prop (pre rest : list string)
    (labels : list json) s :
  (∀ b, b ∈ pre → JStr b ∉ labels) →
  Alert_click_first prop (pre ++ rest)%list (JList labels) s =
  Alert_click_first prop rest (JList labels) s.
Proof.
  induction pre as [|b pre IH]; intros Hpre; [done|].
  cbn [app Alert_click_first].
  destruct (py_in_labels b labels) as (found & Hin & Hfound).
  erewrite bind_return by (unfold lift; by rewrite Hin).
  destruct found.
  - exfalso. eapply (Hpre b); [by left|by apply Hfound].
  - apply IH. intros b' Hb'. apply Hpre. by right.
Qed.

(** X10: [Alert.click] with a list of names, by a bound client whose query
    returns a list of labels: it queries the buttons once and accepts the
    alert with the first name of the list that the alert shows, which it
    returns; when the alert shows none of the names it raises [ValueError]
    with the labels, and posts nothing. *)
Theorem alert_click_takes_first_shown (n : nat) (buttons : list string)
    c d t r labels d1 :
  truthy (__session_id c) = true →
  call d "GET" (session_url c (__session_id c) "wda/alert/buttons") JNull None
  = (Return r, d1) →
  r !! "value" = Some (JList labels) →
  let poll :=
    Http (http_request "GET"
            (session_url c (__session_id c) "wda/alert/buttons") JNull None) in
  let url := session_url c (__session_id c) "alert/accept" in
  (∀ pre name post,
     buttons = (pre ++ name :: post)%list →
     (∀ b, b ∈ pre → JStr b ∉ labels) →
     JStr name ∈ labels →
     let data := JObj {[ "name" := JStr name ]} in
     Alert_click (session_id n) (BNames buttons) (mkState c (mkWorld d t)) =
     (match (call d1 "POST" url data None).1 with
      | Return _ => Return (JStr name)
      | Raise e => Raise e
      | Exhausted => Exhausted
      end,
      mkState c (mkWorld (call d1 "POST" url data None).2
        (t ++ [poll; Http (http_request "POST" url data None)]))))
  ∧ ((∀ b, b ∈ buttons → JStr b ∉ labels) →
     Alert_click (session_id n) (BNames buttons) (mkState c (mkWorld d t)) =
     (Raise (mkExn ValueError
               [JStr "Only these buttons can be clicked"; JList labels]),
      mkState c (mkWorld d1 (t ++ [poll])))).
Proof.
  intros Hbound Hpoll Hvalue poll url.
  assert (Alert_buttons (session_id n) (mkState c (mkWorld d t))
          = (Return (JList labels), mkState c (mkWorld d1 (t ++ [poll]))))
    as Hbuttons.
  { rewrite alert_buttons_bound by done. rewrite Hpoll. cbn [fst snd].
    unfold getattr. by rewrite Hvalue. }
  split.
  - intros pre name post -> Hpre Hname data. unfold Alert_click.
    erewrite bind_return by exact Hbuttons.
    rewrite alert_click_first_skip by done. cbn [Alert_click_first].
    destruct (py_in_labels name labels) as (found & Hin & Hfound).
    erewrite bind_return by (unfold lift; by rewrite Hin).
    rewrite (proj2 Hfound Hname).
    rewrite alert_click_name_bound by done. fold url data.
    by rewrite <- app_assoc.
  - intros Hnone. unfold Alert_click.
    erewrite bind_return by exact Hbuttons.
    rewrite <- (app_nil_r buttons). by rewrite alert_click_first_skip.
Qed.

(** X11: [Alert.click_exists] returns [None] in place of the [ValueError]
    and of the errors of the [WDARequestError] family that [Alert.click]
    raises, and raises every other error of [Alert.click] as it is; so it
    returns [None] when the alert shows none of the names, and it raises
    [TypeError] when it is called without names. *)
Theorem alert_click_exists_swallows (n : nat) c d t r value d1 :
  truthy (__session_id c) = true →
  call d "GET" (session_url c (__session_id c) "wda/alert/buttons") JNull None
  = (Return r, d1) →
  r !! "value" = Some value →
  let after :=
    mkState c (mkWorld d1
      (t ++ [Http (http_request "GET"
                     (session_url c (__session_id c) "wda/alert/buttons")
                     JNull None)])) in
  (∀ prop arg s e s',
     Alert_click prop arg s = (Raise e, s') →
     Alert_click_exists prop arg s =
     (if isinstance e ValueError || isinstance e WDARequestError
      then Return JNull else Raise e, s'))
  ∧ (∀ buttons labels,
       value = JList labels →
       (∀ b, b ∈ buttons → JStr b ∉ labels) →
       Alert_click_exists (session_id n) (BNames buttons)
         (mkState c (mkWorld d t)) = (Return JNull, after))
  ∧ Alert_click_exists (session_id n) BNone (mkState c (mkWorld d t))
    = (Raise (mkExn TypeError []), after).
Proof.
  intros Hbound Hpoll Hvalue after.
  assert (Alert_buttons (session_id n) (mkState c (mkWorld d t))
          = (Return value, after)) as Hbuttons.
  { rewrite alert_buttons_bound by done. rewrite Hpoll. cbn [fst snd].
    unfold getattr. by rewrite Hvalue. }
  assert (∀ prop arg s e s',
            Alert_click prop arg s = (Raise e, s') →
            Alert_click_exists prop arg s =
            (if isinstance e ValueError || isinstance e WDARequestError
             then Return JNull else Raise e, s')) as Hswallow.
  { intros prop arg s e s' Hclick. unfold Alert_click_exists.
    erewrite try_except_raise by done.
    by destruct (isinstance e ValueError || isinstance e WDARequestError). }
  split; [exact Hswallow|split].
  - intros buttons labels -> Hnone.
    erewrite Hswallow; cycle 1.
    { unfold Alert_click. erewrite bind_return by exact Hbuttons.
      rewrite <- (app_nil_r buttons). by rewrite alert_click_first_skip. }
    reflexivity.
  - erewrite Hswallow; cycle 1.
    { unfold Alert_click. by erewrite bind_return by exact Hbuttons. }
    reflexivity.
Qed.

(** X12: [Alert.exists], by a bound client, makes one GET of the alert
    text; it is [True] when the request returns and [False] when it raises
    an error of the [WDARequestError] family, and an error of another kind
    (a network fault, a 502, an empty body) is raised by it. *)
Theorem alert_exists_outcome (n : nat) c d t :
  truthy (__session_id c) = true →
  let url := session_url c (__session_id c) "alert/text" in
  Alert_exists (session_id n) (mkState c (mkWorld d t)) =
  (match (call d "GET" url JNull None).1 with
   | Return _ => Return true
   | Raise e => if isinstance e WDARequestError then Return false else Raise e
   | Exhausted => Exhausted
   end,
   mkState c (mkWorld (call d "GET" url JNull None).2
     (t ++ [Http (http_request "GET" url JNull None)]))).
Proof.
  intros Hbound url.
  unfold Alert_exists, try_except, Alert_text, _session_http_get.
  unfold bind at 1 2. rewrite fetch_bound_call by done. fold url.
  destruct (call d "GET" url JNull None) as [[r|e|] d'] eqn:Hcall;
    cbn [fst snd]; try reflexivity.
  - apply call_return_value in Hcall as [v Hv].
    unfold lift, getattr. by rewrite Hv.
  - by destruct (isinstance e WDARequestError).
Qed.

(** ** [orientation] *)

Lemma orientation_loop_step (n k : nat) c d t :
  truthy (__session_id c) = true →
  let url := session_url c (__session_id c) "orientation" in
  let after :=
    mkState c (mkWorld (call d "GET" url JNull None).2
      (t ++ [Http (http_request "GET" url JNull None)])) in
  orientation_loop (session_id n) (S k) (mkState c (mkWorld d t)) =
  match (call d "GET" url JNull None).1 with
  | Return r =>
      match r !! "value" with
      | Some result =>
          if truthy result then (Return result, after)
          else orientation_loop (session_id n) k (slept 0.5 after)
      | None => (Raise (mkExn AttributeError [JStr "value"]), after)
      end
  | Raise e => (Raise e, after)
  | Exhausted => (Exhausted, after)
  end.
Proof.
  intros Hbound url after. cbn [orientation_loop].
  unfold _session_http_get. unfold bind at 1.
  rewrite fetch_bound_call by done. fold url. fold after.
  destruct (call d "GET" url JNull None).1 as [r|e|]; try reflexivity.
  unfold bind at 1. unfold lift, getattr.
  destruct (r !! "value") as [result|]; [|reflexivity].
  by destruct (truthy result).
Qed.

(** X13: the getter of [orientation], by a bound client, asks up to three
    times: a truthy answer is returned at once, an error is raised at once,
    and each empty answer is followed by a sleep of half a second; after
    three empty answers it returns [None], having slept three times. *)
Theorem orientation_asks_three_times (n : nat) c d t :
  truthy (__session_id c) = true →
  let url := session_url c (__session_id c) "orientation" in
  let get := Http (http_request "GET" url JNull None) in
  (∀ e d1,
     call d "GET" url JNull None = (Raise e, d1) →
     orientation (session_id n) (mkState c (mkWorld d t))
     = (Raise e, mkState c (mkWorld d1 (t ++ [get]))))
  ∧ (∀ r result d1,
       call d "GET" url JNull None = (Return r, d1) →
       r !! "value" = Some result →
       truthy result = true →
       orientation (session_id n) (mkState c (mkWorld d t))
       = (Return result, mkState c (mkWorld d1 (t ++ [get]))))
  ∧ (∀ r1 v1 d1 r2 v2 d2 r3 v3 d3,
       call d "GET" url JNull None = (Return r1, d1) →
       r1 !! "value" = Some v1 → truthy v1 = false →
       call d1 "GET" url JNull None = (Return r2, d2) →
       r2 !! "value" = Some v2 → truthy v2 = false →
       call d2 "GET" url JNull None = (Return r3, d3) →
       r3 !! "value" = Some v3 → truthy v3 = false →
       orientation (session_id n) (mkState c (mkWorld d t))
       = (Return JNull,
          mkState c (mkWorld d3
            (t ++ [get; Sleep (1#2); get; Sleep (1#2); get; Sleep (1#2)])))).
Proof.
  intros Hbound url get. unfold orientation. split; [|split].
  - intros e d1 Hcall. rewrite orientation_loop_step by done.
    fold url. by rewrite Hcall.
  - intros r result d1 Hcall Hvalue Htruthy.
    rewrite orientation_loop_step by done.
    fold url. rewrite Hcall. cbn [fst snd]. by rewrite Hvalue, Htruthy.
  - intros r1 v1 d1 r2 v2 d2 r3 v3 d3 Hc1 Hv1 Hf1 Hc2 Hv2 Hf2 Hc3 Hv3 Hf3.
    rewrite orientation_loop_step by done.
    fold url. rewrite Hc1. cbn [fst snd]. rewrite Hv1, Hf1.
    unfold slept; cbn [self world device trace].
    rewrite orientation_loop_step by done.
    fold url. rewrite Hc2. cbn [fst snd]. rewrite Hv2, Hf2.
    unfold slept; cbn [self world device trace].
    rewrite orientation_loop_step by done.
    fold url. rewrite Hc3. cbn [fst snd]. rewrite Hv3, Hf3.
    unfold slept; cbn [self world device trace orientation_loop].
    unfold ret. by rewrite <- !app_assoc.
Qed.

(** ** [press] and [press_duration] *)

(** X14: [press] with a name other than home, volumeUp and volumeDown
    raises [ValueError] and makes no request; with one of the three, a
    bound client posts the name once and returns [None], whatever the agent
    returns. *)
Theorem press_validates_name (n : nat) (name : string) c d t :
  (name ∉ ["home"; "volumeUp"; "volumeDown"] →
   ∀ prop s,
     press prop name s =
     (Raise (mkExn ValueError
               [JStr ("Invalid name: " ++ name ++
                      ", should be one of ('home', 'volumeUp', 'volumeDown')")]),
      s))
  ∧ (name ∈ ["home"; "volumeUp"; "volumeDown"] →
     truthy (__session_id c) = true →
     let url := session_url c (__session_id c) "wda/pressButton" in
     let data := JObj {[ "name" := JStr name ]} in
     press (session_id n) name (mkState c (mkWorld d t)) =
     (match (call d "POST" url data None).1 with
      | Return _ => Return JNull
      | Raise e => Raise e
      | Exhausted => Exhausted
      end,
      mkState c (mkWorld (call d "POST" url data None).2
        (t ++ [Http (http_request "POST" url data None)])))).
Proof.
  split.
  - intros Hname prop s. unfold press. cbn zeta.
    by rewrite bool_decide_eq_false_2.
  - intros Hname Hbound url data. unfold press. cbn zeta.
    rewrite bool_decide_eq_true_2 by done. cbn [negb].
    unfold _session_http_post, bind. rewrite fetch_bound_call by done.
    fold url data. by destruct (call d "POST" url data None).1.
Qed.

Section Press.
Context `{!Casing}.

(** X15: [press_duration] looks the name up in lower case, so two names of
    ASCII characters that differ in the case of their letters only are one
    name to it; a name whose lower-case form is not in its table raises
    [ValueError] with that lower-case form and makes no request; for a name
    in the table a bound client posts one HID event of page 12 with the
    usage of the table and the duration given. *)
Theorem press_duration_ignores_case (n : nat) (name : string)
    (duration : json) c d t :
  (∀ prop other,
     isascii name = true →
     isascii other = true →
     lower_letters other = lower_letters name →
     press_duration prop other duration = press_duration prop name duration)
  ∧ (hid_usages !! lower name = None →
     ∀ prop s,
       press_duration prop name duration s =
       (Raise (mkExn ValueError [JStr "Invalid name:"; JStr (lower name)]), s))
  ∧ (∀ usage,
       hid_usages !! lower name = Some usage →
       truthy (__session_id c) = true →
       let url := session_url c (__session_id c) "wda/performIoHidEvent" in
       let data :=
         JObj {[ "page" := JInt 12; "usage" := JInt usage;
                 "duration" := duration ]} in
       press_duration (session_id n) name duration (mkState c (mkWorld d t)) =
       ((call d "POST" url data None).1,
        mkState c (mkWorld (call d "POST" url data None).2
          (t ++ [Http (http_request "POST" url data None)])))).
Proof.
  split; [|split].
  - intros prop other Hname Hother Hsame. unfold press_duration.
    by rewrite !lower_isascii, Hsame.
  - intros Hname prop s. unfold press_duration. cbn zeta. by rewrite Hname.
  - intros usage Hname Hbound url data. unfold press_duration. cbn zeta.
    rewrite Hname. unfold _session_http_post.
    by rewrite fetch_bound_call.
Qed.

End Press.

(** ** [app_launch] *)

(** X16: [app_launch] raises [AssertionError], before any request, when the
    arguments are not a list or the environment is not a mapping; otherwise
    a bound client checks the lock, unlocks a locked device, and then posts
    the launch once, with the four entries it was given. *)
Theorem app_launch_checks_then_unlocks (n : nat)
    (bundle_id arguments environment wait_for_quiescence : json) c d t :
  ((∀ l, arguments ≠ JList l) →
   ∀ prop s,
     app_launch prop bundle_id arguments environment wait_for_quiescence s
     = (Raise (mkExn AssertionError []), s))
  ∧ (∀ l,
       arguments = JList l →
       (∀ m, environment ≠ JObj m) →
       ∀ prop s,
         app_launch prop bundle_id arguments environment wait_for_quiescence s
         = (Raise (mkExn AssertionError []), s))
  ∧ (∀ l m evs d1,
       arguments = JList l →
       environment = JObj m →
       truthy (__session_id c) = true →
       lock_checked c d evs d1 →
       let url := session_url c (__session_id c) "wda/apps/launch" in
       let data :=
         JObj {[ "bundleId" := bundle_id;
                 "arguments" := arguments;
                 "environment" := environment;
                 "shouldWaitForQuiescence" := wait_for_quiescence ]} in
       app_launch (session_id n) bundle_id arguments environment
         wait_for_quiescence (mkState c (mkWorld d t)) =
       ((call d1 "POST" url data None).1,
        mkState c (mkWorld (call d1 "POST" url data None).2
          (t ++ evs ++ [Http (http_request "POST" url data None)])))).
Proof.
  split; [|split].
  - intros Hargs prop s. unfold app_launch. apply bind_raise.
    destruct arguments; try done. by destruct (Hargs l).
  - intros l -> Henv prop s. unfold app_launch.
    erewrite bind_return by reflexivity. apply bind_raise.
    destruct environment; try done. by destruct (Henv m).
  - intros l m evs d1 -> -> Hbound Hlock url data. unfold app_launch.
    erewrite bind_return by reflexivity.
    erewrite bind_return by reflexivity.
    erewrite lock_checked_run by done.
    unfold _session_http_post. rewrite fetch_bound_call by done.
    fold url data. by rewrite <- app_assoc.
Qed.

(** ** The watcher thread *)

(** X17: an error that is not of the [WDARequestError] family ends the
    watcher: it is raised out of the loop at the turn it occurs in, with no
    sleep and no later poll, whatever the stop signal does afterwards.  A
    poll whose [value] is [None], with names to look for, is such a turn:
    it raises [TypeError]. *)
Theorem watcher_ends_on_other_errors (n : nat) (interval : Q) c d t r d1 :
  truthy (__session_id c) = true →
  call d "GET" (session_url c (__session_id c) "wda/alert/buttons") JNull None
  = (Return r, d1) →
  r !! "value" = Some JNull →
  (∀ prop buttons s e s' later,
     _inner_try prop buttons s = (Raise e, s') →
     isinstance e WDARequestError = false →
     _inner prop (false :: later) buttons interval s = (Raise e, s'))
  ∧ (∀ b buttons later,
       _inner (session_id n) (false :: later) (b :: buttons) interval
         (mkState c (mkWorld d t)) =
       (Raise (mkExn TypeError []),
        mkState c (mkWorld d1
          (t ++ [ Http (http_request "GET"
                          (session_url c (__session_id c) "wda/alert/buttons")
                          JNull None);
                  Log "info" "Alert detected, buttons: %s" [JNull] ])))).
Proof.
  intros Hbound Hpoll Hvalue.
  assert (∀ prop buttons s e s' later,
            _inner_try prop buttons s = (Raise e, s') →
            isinstance e WDARequestError = false →
            _inner prop (false :: later) buttons interval s = (Raise e, s'))
    as Hends.
  { intros prop buttons s e s' later Htry He. cbn [_inner].
    apply bind_raise. unfold _inner_tick.
    erewrite try_except_raise by done. by rewrite He. }
  split; [exact Hends|].
  intros b buttons later. apply Hends; [|done].
  erewrite inner_try_bound; [|done|exact Hpoll|exact Hvalue].
  reflexivity.
Qed.

(** X18: against an agent whose every answer is one error of the
    [WDARequestError] family (no alert is open, say), the watcher of a bound
    client that finds the stop signal unset [k] times and then set makes
    exactly [k] polls, each followed by a sleep of the interval, clicks
    nothing, and returns. *)
Theorem watcher_polls_until_stopped (n k : nat) (buttons : list string)
    (interval : Q) c d t o e :
  truthy (__session_id c) = true →
  (∀ d' rq, (respond d' rq).1 = o) →
  _fetch_decode "GET" (session_url c (__session_id c) "wda/alert/buttons")
    JNull o = Raise e →
  isinstance e WDARequestError = true →
  let poll :=
    Http (http_request "GET"
            (session_url c (__session_id c) "wda/alert/buttons") JNull None) in
  let run :=
    _inner (session_id n) (replicate k false ++ [true])%list buttons interval
      (mkState c (mkWorld d t)) in
  run.1 = Return tt
  ∧ self run.2 = c
  ∧ trace (world run.2)
    = (t ++ List.concat (replicate k [poll; Sleep (Qred interval)]))%list.
Proof.
  intros Hbound Halways Hdecode He poll run. subst run.
  revert d t. induction k as [|k IH]; intros d t.
  - cbn. by rewrite app_nil_r.
  - cbn [replicate app _inner].
    assert (_inner_tick (session_id n) buttons (mkState c (mkWorld d t))
            = (Return tt,
               mkState c (mkWorld
                 (respond d (http_request "GET"
                    (session_url c (__session_id c) "wda/alert/buttons")
                    JNull None)).2
                 (t ++ [poll])))) as Htick.
    { assert (Alert_buttons (session_id n) (mkState c (mkWorld d t))
              = (Raise e,
                 mkState c (mkWorld
                   (respond d (http_request "GET"
                      (session_url c (__session_id c) "wda/alert/buttons")
                      JNull None)).2
                   (t ++ [poll])))) as Hbuttons.
      { rewrite alert_buttons_bound by done. unfold call.
        pose proof (Halways d (http_request "GET"
          (session_url c (__session_id c) "wda/alert/buttons") JNull None))
          as Ho.
        destruct (respond d _) as [o' d']. cbn in Ho. subst o'.
        cbn [fst snd]. by rewrite Hdecode. }
      unfold _inner_tick.
      erewrite try_except_raise;
        [|unfold _inner_try; apply bind_raise; exact Hbuttons].
      by rewrite He. }
    erewrite bind_return by exact Htick.
    erewrite bind_return by reflexivity.
    cbn [self world device trace].
    destruct (IH (respond d (http_request "GET"
                    (session_url c (__session_id c) "wda/alert/buttons")
                    JNull None)).2
                 ((t ++ [poll]) ++ [Sleep (Qred interval)])%list)
      as (Hout & Hself & Htrace).
    split; [exact Hout|]. split; [exact Hself|].
    rewrite Htrace. cbn [List.concat replicate app].
    by rewrite <- !app_assoc.
Qed.

(** ** What a request takes from the client *)

(** X19: a request takes from the client its URL and its session identifier
    and nothing else: two clients that agree on both, whatever their
    timeouts, get the same outcome and leave the agent and the trace in the
    same state, and the timeout that is handed to [requests.request] is the
    one of the call, in particular none when the call gives none. *)
Theorem fetch_depends_on_url_and_session (n : nat) (method urlpath : string)
    (data : json) (with_session : bool) (timeout : option Q) c1 c2 d t :
  __wda_url c1 = __wda_url c2 →
  __session_id c1 = __session_id c2 →
  (with_session = true → truthy (__session_id c1) = true) →
  let run c :=
    _fetch (session_id n) method urlpath data with_session timeout
      (mkState c (mkWorld d t)) in
  (run c1).1 = (run c2).1
  ∧ world (run c1).2 = world (run c2).2
  ∧ ∃ rq, trace (world (run c1).2) = (t ++ [Http rq])%list
          ∧ req_timeout rq = timeout.
Proof.
  intros Hurl Hsid Hbound run. subst run. cbn beta.
  destruct with_session.
  - rewrite !fetch_bound_call by (rewrite <- ?Hsid; by apply Hbound).
    unfold session_url. rewrite <- Hurl, <- Hsid. cbn [fst snd world trace].
    repeat split. by eexists.
  - rewrite !fetch_base_call. unfold base_url. rewrite <- Hurl.
    cbn [fst snd world trace]. repeat split. by eexists.
Qed.

(** ** [tap] *)

(** X23: when the first request of [tap] returns, a bound client makes no
    second one: what the agent answered is returned and the trace grows by
    that one request. *)
Theorem tap_returns_first_answer (n : nat) (x y : json) c d t r d1 :
  truthy (__session_id c) = true →
  let data := JObj {[ "x" := x; "y" := y ]} in
  let url := session_url c (__session_id c) "wda/tap" in
  call d "POST" url data None = (Return r, d1) →
  tap (session_id n) x y (mkState c (mkWorld d t)) =
  (Return r,
   mkState c (mkWorld d1 (t ++ [Http (http_request "POST" url data None)]))).
Proof.
  intros Hbound data url Hcall. unfold tap, _session_http_post.
  apply try_except_return. by apply fetch_bound.
Qed.

(** ** Characters: the keys of [send_keys] and the message of a
    malformed body *)

Lemma code_points_cons (a : ascii) (r : string) :
  ∃ p ps, code_points (String a r) = p :: ps.
Proof.
  cbn [code_points]. destruct (code_points r) as [|p ps]; [by eexists _, _|].
  destruct r as [|b r']; [by eexists _, _|].
  destruct (is_continuation b); by eexists _, _.
Qed.

Lemma code_points_join (s : string) :
  foldr String.append EmptyString (code_points s) = s.
Proof.
  induction s as [|a r IH]; [done|]. cbn [code_points].
  destruct (code_points r) as [|p ps] eqn:Hr.
  - destruct r as [|b r']; [done|].
    destruct (code_points_cons b r') as (p & ps & Hcons). congruence.
  - cbn [foldr] in IH.
    destruct (match r with
              | EmptyString => false
              | String b _ => is_continuation b
              end); cbn [foldr]; by rewrite <- IH.
Qed.

Lemma code_points_nonempty (s : string) :
  Forall (λ p, p ≠ EmptyString) (code_points s).
Proof.
  induction s as [|a r IH]; [by constructor|]. cbn [code_points].
  destruct (code_points r) as [|p ps]; [by repeat constructor|].
  apply Forall_cons in IH as [Hp Hps].
  destruct (match r with
            | EmptyString => false
            | String b _ => is_continuation b
            end); by repeat constructor.
Qed.

Lemma code_points_ascii (s : string) :
  (∀ a, a ∈ list_ascii_of_string s → is_continuation a = false) →
  code_points s = (λ a, String a EmptyString) <$> list_ascii_of_string s.
Proof.
  induction s as [|a r IH]; intros Hascii; [done|].
  cbn [code_points list_ascii_of_string fmap list_fmap].
  rewrite IH by (intros b Hb; apply Hascii; by right).
  destruct r as [|b r']; [done|].
  cbn [list_ascii_of_string fmap list_fmap].
  rewrite (Hascii b) by (right; by left). reflexivity.
Qed.

Lemma length_join_singles (l : list ascii) :
  String.length
    (foldr String.append EmptyString ((λ a, String a EmptyString) <$> l))
  = List.length l.
Proof. induction l as [|a l IH]; [done|]. cbn. by rewrite <- IH. Qed.

Lemma prefix_app_same (a b c : string) :
  String.prefix (a ++ b) (a ++ c) = String.prefix b c.
Proof.
  induction a as [|x a IH]; [done|].
  change (String.prefix (String x (a ++ b)) (String x (a ++ c))
          = String.prefix b c).
  cbn [String.prefix]. destruct (ascii_dec x x); [apply IH|done].
Qed.

Lemma prefix_join_take (n : nat) (l : list string) :
  String.prefix (foldr String.append EmptyString (take n l))
                (foldr String.append EmptyString l) = true.
Proof.
  revert n. induction l as [|p l IH]; intros [|n]; try done.
  - cbn. by destruct (p ++ _).
  - cbn [take foldr]. by rewrite prefix_app_same.
Qed.

(** X20: a string given to [send_keys] is sent as the list of its
    characters, in order and with none left out: the pieces are not empty
    and put together they are the string; for a string without multi-byte
    characters there is one piece for each character.  A bound client sends
    them in one POST. *)
Theorem send_keys_sends_each_character (n : nat) (text : string) c d t :
  truthy (__session_id c) = true →
  foldr String.append EmptyString (code_points text) = text
  ∧ Forall (λ p, p ≠ EmptyString) (code_points text)
  ∧ ((∀ a, a ∈ list_ascii_of_string text → is_continuation a = false) →
     code_points text
     = (λ a, String a EmptyString) <$> list_ascii_of_string text)
  ∧ let url := session_url c (__session_id c) "wda/keys" in
    let data := JObj {[ "value" := JList (JStr <$> code_points text) ]} in
    send_keys_once (session_id n) (JStr text) (mkState c (mkWorld d t)) =
    (match (call d "POST" url data None).1 with
     | Return r => Return (JObj r)
     | Raise e => Raise e
     | Exhausted => Exhausted
     end,
     mkState c (mkWorld (call d "POST" url data None).2
       (t ++ [Http (http_request "POST" url data None)]))).
Proof.
  intros Hbound. split; [apply code_points_join|].
  split; [apply code_points_nonempty|]. split; [apply code_points_ascii|].
  intros url data.
  destruct (call d "POST" url data None) as [res d'] eqn:Hcall.
  by erewrite send_keys_once_bound.
Qed.

(** X21: the message of the error that [_fetch] raises for a body that is
    not JSON is a beginning of the body followed by an ellipsis: the whole
    body when it has no more than 100 characters, and no more than 100
    bytes of it when it has no multi-byte characters. *)
Theorem fetch_malformed_message_is_cut (method url : string) (data : json)
    (status_code : Z) (text : string) :
  status_code ≠ 502%Z →
  blank text = false →
  ∃ head,
    _fetch_decode method url data (HttpResponse status_code text None) =
    Raise (mkExn WDAError [JStr method; JStr url; JStr (head ++ "...")])
    ∧ String.prefix head text = true
    ∧ ((List.length (code_points text) ≤ 100)%nat → head = text)
    ∧ ((∀ a, a ∈ list_ascii_of_string text → is_continuation a = false) →
       (String.length head ≤ 100)%nat).
Proof.
  intros Hcode Hblank. exists (str_take 100 text). split; [|split; [|split]].
  - unfold _fetch_decode.
    destruct (Z.eqb_spec status_code 502) as [?|_]; [done|].
    by rewrite Hblank.
  - unfold str_take. rewrite <- (code_points_join text) at 2.
    apply prefix_join_take.
  - intros Hshort. unfold str_take.
    rewrite take_ge by done. apply code_points_join.
  - intros Hascii. unfold str_take.
    rewrite code_points_ascii, <- fmap_take, length_join_singles by done.
    rewrite length_take. lia.
Qed.

(** ** The constructor *)

Lemma endswith_suffix (s suf : string) :
  endswith s suf = true → ∃ p, s = p ++ suf.
Proof.
  induction s as [|a r IH]; cbn [endswith]; intros Hends.
  - apply orb_true_iff in Hends as [Heq|?]; [|done].
    apply String.eqb_eq in Heq as <-. by exists EmptyString.
  - apply orb_true_iff in Hends as [Heq|Hrest].
    + apply String.eqb_eq in Heq as <-. by exists EmptyString.
    + destruct (IH Hrest) as [p ->]. by exists (String a p).
Qed.

(** X22: the URL that the constructor hands to the parser always ends in
    the separator: it is the URL given when that ends in the separator, and
    the URL given with the separator appended when it does not; the client
    starts with the session identifier given, a timeout of 30 seconds and
    an empty registry.  Without a URL the constructor raises
    [AttributeError]. *)
Theorem constructor_ends_in_separator (url : string) (sid : json) :
  BaseClient None sid = Raise (mkExn AttributeError [JStr "endswith"])
  ∧ ∃ p,
      BaseClient (Some url) sid
      = Return (mkClient (geturl (p ++ "/")) sid 30.0 ∅)
      ∧ (endswith url "/" = true → p ++ "/" = url)
      ∧ (endswith url "/" = false → p = url).
Proof.
  split; [reflexivity|]. unfold BaseClient.
  destruct (endswith url "/") eqn:Hurl; cbn [negb].
  - destruct (endswith_suffix _ _ Hurl) as [p ->]. exists p. by repeat split.
  - exists url. by repeat split.
Qed.

(** ** The identifier of a new session *)

(** X24: the client that [session] returns is bound to whatever the
    creation response has under [sessionId], an empty value included; when
    the response has no such entry, [session] raises [AttributeError] after
    the creation call has been made. *)
Theorem session_binds_what_the_agent_issues (n : nat)
    (bundle_id arguments environment alert_action : json)
    c d t caps evs d1 cr d2 :
  session_capabilities bundle_id arguments environment alert_action
  = Return caps →
  lock_checked c d evs d1 →
  call d1 "POST" (base_url c "session") (session_payload caps) None
  = (Return cr, d2) →
  let run :=
    session (S n) bundle_id arguments environment alert_action
      (mkState c (mkWorld d t)) in
  let after :=
    mkState c (mkWorld d2
      (t ++ evs ++ [Http (http_request "POST" (base_url c "session")
                            (session_payload caps) None)])) in
  (∀ sid,
     cr !! "sessionId" = Some sid →
     ∃ client, run = (Return client, after) ∧ __session_id client = sid)
  ∧ (cr !! "sessionId" = None →
     run = (Raise (mkExn AttributeError [JStr "sessionId"]), after)).
Proof.
  intros Hcaps Hlock Hcall run after. split.
  - intros sid Hsid.
    destruct (session_client_return c sid) as (client & Hclient & Hbound & _).
    exists client. split; [|done]. unfold run.
    erewrite session_creates by done. by rewrite Hclient.
  - intros Hsid. unfold run. cbn [session].
    erewrite bind_return by (unfold lift; by rewrite Hcaps).
    erewrite lock_checked_run by done.
    erewrite bind_return;
      [|apply try_except_return; unfold http_post; by apply fetch_base].
    erewrite bind_raise; [|unfold lift, getattr; by rewrite Hsid].
    unfold after. by rewrite <- app_assoc.
Qed.

(** X25: against an agent that answers every request with one and the same
    envelope, with an empty [value] and an empty [sessionId], reading the
    identifier of an unbound client does not come to an end: the probe finds
    no session, the session created has no identifier, and the read starts
    again on the new client; every budget of nested calls is used up. *)
Theorem session_id_never_settles (n : nat) c d t o env sid0 :
  (∀ d' rq, (respond d' rq).1 = o) →
  (∀ method url data, _fetch_decode method url data o = Return env) →
  env !! "value" = Some (JObj ∅) →
  env !! "sessionId" = Some sid0 →
  truthy sid0 = false →
  truthy (__session_id c) = false →
  (session_id n (mkState c (mkWorld d t))).1 = Exhausted.
Proof.
  intros Halways Hdecode Hvalue Hsid Hempty.
  assert (∀ d0 method url data,
            call d0 method url data None
            = (Return env, (respond d0 (http_request method url data None)).2))
    as Hcall.
  { intros d0 method url data. unfold call.
    pose proof (Halways d0 (http_request method url data None)) as Ho.
    destruct (respond d0 _) as [o' d0']. cbn in Ho. subst o'.
    by rewrite Hdecode. }
  revert c d t. induction n as [|n IH]; intros c d t Hunbound.
  - cbn [session_id]. unfold bind, get_self. cbn [self]. by rewrite Hunbound.
  - rewrite session_id_unbound by done.
    erewrite bind_return by (by eapply status_return).
    cbn beta iota zeta. rewrite dict_get_insert. unfold dict_get at 1.
    rewrite Hsid. change (default JNull (Some sid0)) with sid0.
    rewrite Hempty.
    destruct n as [|n]; [reflexivity|].
    destruct (session_client_return c sid0) as (client & Hnew & Hclient & _).
    erewrite bind_return.
    2:{ erewrite (session_creates n JNull JNull JNull JNull);
          [by rewrite Hnew|reflexivity| |by apply Hcall|exact Hsid].
        eexists _, _, _. split; [apply Hcall|]. split; [exact Hvalue|].
        change (truthy (JObj ∅)) with false. by split. }
    unfold on. cbn [self world].
    match goal with
    | |- context [session_id (S n) (mkState client (mkWorld ?d' ?t'))] =>
        specialize (IH client d' t')
    end.
    rewrite Hclient in IH. specialize (IH Hempty).
    destruct (session_id (S n) _) as [out s']. cbn in IH. by subst out.
Qed.

End Further.

(** * Worked examples *)

Section Examples.
Import Sample.

(** A session that is gone is classified as such, and the traceback is
    dropped. *)
Lemma fetch_classifies_error_witness :
  _fetch_decode "DELETE" "http://localhost:8100/session/S1/" JNull
    (ok (JObj gone_reply)) =
  Raise (mkExn WDAInvalidSessionIdError
           [JInt 110;
            JObj {[ "error" := JStr "invalid session id";
                    "message" := JStr "Session does not exist" ]}])
  ∧ pop "traceback" gone_value !! "traceback" = None.
Proof.
  destruct (fetch_classifies_error "DELETE" "http://localhost:8100/session/S1/"
              JNull 200 "{...}" gone_reply gone_value) as (Hraise & Hclean & _).
  - discriminate.
  - reflexivity.
  - reflexivity.
  - reflexivity.
  - split; [exact Hraise|exact Hclean].
Defined.

(** C1, the claim as it stands: an error that no predicate takes, in an
    envelope with status 13, is raised with the status 110, not with 13. *)
Lemma fetch_error_carries_status_110 :
  odd_reply !! "status" = Some (JInt 13)
  ∧ _fetch_decode "GET" "http://localhost:8100/source" JNull
      (ok (JObj odd_reply)) =
    Raise (mkExn WDARequestError
             [JInt 110; JObj {[ "error" := JStr "unsupported operation" ]}])
  ∧ _fetch_decode "GET" "http://localhost:8100/source" JNull
      (ok (JObj odd_reply)) ≠
    Raise (mkExn WDARequestError
             [JInt 13; JObj {[ "error" := JStr "unsupported operation" ]}]).
Proof.
  split; [reflexivity|]. split; [reflexivity|].
  intros Heq. vm_compute in Heq. discriminate Heq.
Qed.

(** A page of HTML in place of JSON, and a refused connection. *)
Lemma fetch_malformed_body_witness :
  _fetch_decode "GET" "http://localhost:8100/status" JNull
    (HttpResponse 200 "<html>Service Unavailable</html>" None) =
  Raise (mkExn WDAError
           [JStr "GET"; JStr "http://localhost:8100/status";
            JStr "<html>Service Unavailable</html>..."])
  ∧ _fetch_decode "GET" "http://localhost:8100/status" JNull
      (RequestException "Connection refused") =
    Raise (mkExn WDAError
             [JStr "GET"; JStr "http://localhost:8100/status";
              JStr "Connection refused"]).
Proof.
  apply (fetch_malformed_body "GET" "http://localhost:8100/status" JNull 200
           "<html>Service Unavailable</html>" "Connection refused").
  - discriminate.
  - reflexivity.
Defined.

(** C6, the claim as it stands: the error raised for a body that is not
    JSON and the error raised for a network fault are of one class. *)
Lemma malformed_body_and_network_fault_share_class :
  _fetch_decode "GET" "http://localhost:8100/status" JNull
    (HttpResponse 200 "<html>Service Unavailable</html>" None) =
  Raise (mkExn WDAError
           [JStr "GET"; JStr "http://localhost:8100/status";
            JStr "<html>Service Unavailable</html>..."])
  ∧ _fetch_decode "GET" "http://localhost:8100/status" JNull
      (RequestException "Connection refused") =
    Raise (mkExn WDAError
             [JStr "GET"; JStr "http://localhost:8100/status";
              JStr "Connection refused"])
  ∧ exn_class (mkExn WDAError
                 [JStr "GET"; JStr "http://localhost:8100/status";
                  JStr "<html>Service Unavailable</html>..."])
    = exn_class (mkExn WDAError
                   [JStr "GET"; JStr "http://localhost:8100/status";
                    JStr "Connection refused"]).
Proof. by repeat split. Qed.

(** The base URL with and without its separator. *)
Lemma base_url_normalization_witness :
  ∃ c1 c2,
    BaseClient (Some "http://localhost:8100") JNull = Return c1
    ∧ BaseClient (Some "http://localhost:8100/") JNull = Return c2
    ∧ c1 = c2
    ∧ __wda_url c1 = "http://localhost:8100/"
    ∧ base_url c1 "wda/keys" = base_url c2 "wda/keys"
    ∧ session_url c1 (JStr "S1") "wda/keys"
      = session_url c2 (JStr "S1") "wda/keys".
Proof.
  exact (base_url_normalization "http://localhost:8100" JNull (JStr "S1")
           "wda/keys" eq_refl).
Defined.



(** Discovery: an agent that has a session, and one that has none. *)
Lemma session_id_discovery_witness :
  session_id 1 (start unbound [ok (JObj (created "S0"))]) =
  (Return (JStr "S0"),
   mkState (set_session_id (JStr "S0") unbound)
     (mkWorld [] [GET "http://localhost:8100/status"]))
  ∧ session_id 2
      (start unbound [ ok (JObj no_session); ok (JObj unlocked);
                       ok (JObj (created "S9")) ]) =
    (Return (JStr "S9"),
     mkState unbound
       (mkWorld []
          [ GET "http://localhost:8100/status";
            GET "http://localhost:8100/wda/locked";
            POST "http://localhost:8100/session" (session_payload ∅) ])).
Proof.
  split.
  - destruct (session_id_discovery 0 unbound [ok (JObj (created "S0"))] [])
      as (_ & Hprobe & _).
    exact (proj1 (Hprobe (created "S0") ∅ [] eq_refl eq_refl eq_refl eq_refl)).
  - destruct (session_id_discovery 0 unbound
                [ ok (JObj no_session); ok (JObj unlocked);
                  ok (JObj (created "S9")) ] [])
      as (_ & _ & Hcreate).
    refine (Hcreate no_session ∅
              [ ok (JObj unlocked); ok (JObj (created "S9")) ]
              [ GET "http://localhost:8100/wda/locked" ]
              [ ok (JObj (created "S9")) ] (created "S9") [] (JStr "S9")
              eq_refl eq_refl eq_refl eq_refl _ eq_refl eq_refl eq_refl).
    exists unlocked, (JBool false), [ ok (JObj (created "S9")) ].
    repeat split.
Defined.

(** C3, the claim as it stands: the probe reports no session, the creation
    call comes back empty, and discovery issues a second creation call
    before it returns an identifier. *)
Lemma session_id_creates_twice :
  (session_id 3
     (start unbound [ ok (JObj no_session); ok (JObj unlocked);
                      HttpResponse 200 "" None;
                      ok (JObj unlocked); ok (JObj (created "S2"));
                      ok (JObj (state_of "S2" 4)) ])).1
  = Return (JStr "S2")
  ∧ trace (world (session_id 3
     (start unbound [ ok (JObj no_session); ok (JObj unlocked);
                      HttpResponse 200 "" None;
                      ok (JObj unlocked); ok (JObj (created "S2"));
                      ok (JObj (state_of "S2" 4)) ])).2)
    = [ GET "http://localhost:8100/status";
        GET "http://localhost:8100/wda/locked";
        POST "http://localhost:8100/session" (session_payload ∅);
        GET "http://localhost:8100/wda/locked";
        POST "http://localhost:8100/session" (session_payload ∅);
        POST "http://localhost:8100/session/S2/wda/apps/state"
          (JObj {[ "bundleId" := JNull ]}) ]
  ∧ creation_calls (trace (world (session_id 3
     (start unbound [ ok (JObj no_session); ok (JObj unlocked);
                      HttpResponse 200 "" None;
                      ok (JObj unlocked); ok (JObj (created "S2"));
                      ok (JObj (state_of "S2" 4)) ])).2))
    = 2%nat.
Proof. repeat split; vm_compute; reflexivity. Qed.

(** The creation call comes back empty, and the application turns out to
    run in the foreground. *)
Lemma session_empty_response_fallback_witness :
  session 2 (JStr "com.example.app") JNull JNull JNull
    (start unbound [ ok (JObj unlocked); HttpResponse 200 "" None;
                     ok (JObj unlocked); ok (JObj (created "S2"));
                     ok (JObj (state_of "S2" 4)) ]) =
  (Return (mkClient "http://localhost:8100/" (JStr "S2") 30.0 ∅),
   mkState unbound
     (mkWorld []
        [ GET "http://localhost:8100/wda/locked";
          POST "http://localhost:8100/session"
            (session_payload
               {[ "alwaysMatch" :=
                    JObj {[ "bundleId" := JStr "com.example.app";
                            "arguments" := JList [];
                            "environment" := JObj ∅;
                            "shouldWaitForQuiescence" := JBool false ]} ]});
          GET "http://localhost:8100/wda/locked";
          POST "http://localhost:8100/session" (session_payload ∅);
          POST "http://localhost:8100/session/S2/wda/apps/state"
            (JObj {[ "bundleId" := JStr "com.example.app" ]}) ])).
Proof.
  edestruct (session_empty_response_fallback 1
               (JStr "com.example.app") JNull JNull JNull unbound
               [ ok (JObj unlocked); HttpResponse 200 "" None;
                 ok (JObj unlocked); ok (JObj (created "S2"));
                 ok (JObj (state_of "S2" 4)) ] [])
    as (Hforeground & _).
  - reflexivity.
  - exists unlocked, (JBool false),
      [ HttpResponse 200 "" None; ok (JObj unlocked);
        ok (JObj (created "S2")); ok (JObj (state_of "S2" 4)) ].
    repeat split.
  - reflexivity.
  - reflexivity.
  - exact (Hforeground (state_of "S2" 4) _ (JInt 4) (JStr "S2")
             eq_refl eq_refl eq_refl eq_refl).
Defined.

(** C4, the claim as it stands: the creation call comes back empty and the
    run-state query is answered with a 502; the application is not
    confirmed in the foreground, and what [session] raises is the error of
    the query, not the empty-response error of the creation call. *)
Lemma session_fallback_raises_its_own_error :
  (session 2 (JStr "com.example.app") JNull JNull JNull
     (start unbound [ ok (JObj unlocked); HttpResponse 200 "" None;
                      ok (JObj unlocked); ok (JObj (created "S2"));
                      HttpResponse 502 "Bad Gateway" None ])).1
  = Raise (mkExn WDABadGateway [JInt 502; JStr "Bad Gateway"])
  ∧ last (trace (world (session 2 (JStr "com.example.app") JNull JNull JNull
     (start unbound [ ok (JObj unlocked); HttpResponse 200 "" None;
                      ok (JObj unlocked); ok (JObj (created "S2"));
                      HttpResponse 502 "Bad Gateway" None ])).2))
    = Some (POST "http://localhost:8100/session/S2/wda/apps/state"
              (JObj {[ "bundleId" := JStr "com.example.app" ]}))
  ∧ WDABadGateway ≠ WDAEmptyResponseError.
Proof. repeat split; [vm_compute; reflexivity..|discriminate]. Qed.

(** An agent that never shows a keyboard: three requests, then the error. *)
Lemma retry_policy_witness :
  (@send_keys externals unit (constant no_keyboard)
     (@session_id externals unit (constant no_keyboard) 0) (JStr "hi")
     (mkState bound (mkWorld tt []))).1
  = Raise (mkExn WDAKeyboardNotPresentError
             [ JInt 110;
               JObj {[ "error" := JStr "invalid element state";
                       "message" :=
                         JStr "The on-screen keyboard must be present to send keys"
                    ]} ])
  ∧ trace (world (@send_keys externals unit (constant no_keyboard)
     (@session_id externals unit (constant no_keyboard) 0) (JStr "hi")
     (mkState bound (mkWorld tt []))).2)
    = [ POST "http://localhost:8100/session/S1/wda/keys"
          (JObj {[ "value" := JList [JStr "h"; JStr "i"] ]});
        Sleep 1;
        POST "http://localhost:8100/session/S1/wda/keys"
          (JObj {[ "value" := JList [JStr "h"; JStr "i"] ]});
        Sleep 1;
        POST "http://localhost:8100/session/S1/wda/keys"
          (JObj {[ "value" := JList [JStr "h"; JStr "i"] ]}) ].
Proof.
  destruct (@retry_policy externals unit (constant no_keyboard) 0)
    as (_ & _ & _ & Hkeys & _).
  exact (Hkeys bound tt [] (JStr "hi") no_keyboard _ eq_refl
           (fun _ _ => eq_refl) eq_refl eq_refl).
Defined.

(** C2, the claim as it stands: [tap] is not one of the three operations,
    yet after the 502 that answers its request it sends the request again,
    to another path, and returns what that gives. *)
Lemma tap_repeats_its_request :
  tap (session_id 0) (JInt 10) (JInt 20)
    (start bound [ HttpResponse 502 "Bad Gateway" None;
                   ok (JObj (done_with "S1")) ]) =
  (Return (done_with "S1"),
   mkState bound
     (mkWorld []
        [ POST "http://localhost:8100/session/S1/wda/tap"
            (JObj {[ "x" := JInt 10; "y" := JInt 20 ]});
          POST "http://localhost:8100/session/S1/wda/tap/0"
            (JObj {[ "x" := JInt 10; "y" := JInt 20 ]}) ])).
Proof. vm_compute. reflexivity. Qed.


(** The same request by a client with handlers and by one without. *)
Lemma fetch_ignores_callbacks_witness :
  (_fetch (session_id 0) "GET" "status" JNull false None
     (start observed [ok (JObj no_session)])).1
  = (_fetch (session_id 0) "GET" "status" JNull false None
       (start bound [ok (JObj no_session)])).1
  ∧ world (_fetch (session_id 0) "GET" "status" JNull false None
             (start observed [ok (JObj no_session)])).2
    = world (_fetch (session_id 0) "GET" "status" JNull false None
               (start bound [ok (JObj no_session)])).2.
Proof.
  destruct (fetch_ignores_callbacks 0 "GET" "status" JNull false None bound
              [ok (JObj no_session)] [] (__callbacks observed))
    as (_ & _ & Hout & Hworld & _).
  - discriminate.
  - split; [exact Hout|exact Hworld].
Defined.

(** C9, the claim as it stands: a handler is registered for each event, a
    request is made, and no handler is invoked. *)
Lemma fetch_invokes_no_handler :
  __callbacks observed !! Callback.HTTP_REQUEST_BEFORE = Some ["before"]
  ∧ __callbacks observed !! Callback.HTTP_REQUEST_AFTER = Some ["after"]
  ∧ _fetch (session_id 0) "GET" "status" JNull false None
      (start observed [ok (JObj no_session)]) =
    (Return no_session,
     mkState observed (mkWorld [] [GET "http://localhost:8100/status"]))
  ∧ (Invoke Callback.HTTP_REQUEST_BEFORE "before"
     ∉ [GET "http://localhost:8100/status"])
  ∧ (Invoke Callback.HTTP_REQUEST_AFTER "after"
     ∉ [GET "http://localhost:8100/status"]).
Proof.
  split; [reflexivity|]. split; [reflexivity|]. split; [reflexivity|].
  split; intros Hin%list_elem_of_singleton; discriminate Hin.
Qed.

End Examples.

(** * Further worked examples *)

Section MoreExamples.
Import Sample.

Ltac run := first [reflexivity | vm_compute; reflexivity].

Ltac absent :=
  let Hin := fresh "Hin" in
  intros Hin;
  repeat (apply elem_of_cons in Hin as [Hin|Hin]; [discriminate Hin|]);
  by apply elem_of_nil in Hin.

(** An answer without a status. *)
Lemma fetch_returns_clean_envelope_witness :
  ∃ status_code text retjson value,
    ok (JObj bare_answer) = HttpResponse status_code text (Some (JObj retjson))
    ∧ status_code ≠ 502%Z
    ∧ blank text = false
    ∧ answer (JStr "PORTRAIT") !! "status"
      = Some (default (JInt 0) (retjson !! "status"))
    ∧ (∀ k, k ≠ "status" → answer (JStr "PORTRAIT") !! k = retjson !! k)
    ∧ answer (JStr "PORTRAIT") !! "value" = Some value
    ∧ (∀ m, value = JObj m → truthy (dict_get "error" m) = false).
Proof.
  apply (fetch_returns_clean_envelope "GET"
           "http://localhost:8100/session/S1/orientation" JNull).
  vm_compute. reflexivity.
Defined.

(** Two empty bodies, then the status. *)
Lemma status_retries_empty_responses_witness :
  status (session_id 0)
    (mkState unbound
       (mkWorld [ HttpResponse 200 "" None; HttpResponse 200 "  " None;
                  ok (JObj (created "S0")) ] [])) =
  (Return (JObj {[ "sessionId" := JStr "S0" ]}),
   mkState unbound
     (mkWorld []
        [ GET "http://localhost:8100/status"; Sleep 2;
          GET "http://localhost:8100/status"; Sleep 2;
          GET "http://localhost:8100/status" ])).
Proof.
  rewrite (status_retries_empty_responses (session_id 0) unbound _ []
             (mkExn WDAEmptyResponseError
                [JStr "GET"; JStr "http://localhost:8100/status"; JNull])
             [ HttpResponse 200 "  " None; ok (JObj (created "S0")) ]
             (mkExn WDAEmptyResponseError
                [JStr "GET"; JStr "http://localhost:8100/status"; JNull])
             [ ok (JObj (created "S0")) ]
             (created "S0") ∅ []);
    reflexivity.
Defined.

(** The identifier of the envelope goes into the value. *)
Lemma status_carries_envelope_session_witness :
  ∃ m,
    status (session_id 0)
      (mkState unbound (mkWorld [ok (JObj (created "S0"))] [])) =
    (Return (JObj m),
     mkState unbound (mkWorld [] [GET "http://localhost:8100/status"]))
    ∧ m !! "sessionId" = Some (JStr "S0").
Proof.
  destruct (status_carries_envelope_session (session_id 0) unbound
              [ok (JObj (created "S0"))] [] (created "S0") [])
    as [Hvalue _]; [reflexivity|].
  destruct (Hvalue ∅ eq_refl) as (m & Hrun & Hsid & _).
  exists m. split; [exact Hrun|exact Hsid].
Defined.

(** An alert action that is not one of the two. *)
Lemma session_asserts_alert_action_witness :
  session 1 (JStr "com.example.app") JNull JNull (JStr "ignore")
    (start unbound []) =
  (Raise (mkExn AssertionError []), start unbound []).
Proof.
  exact (proj1 (session_asserts_alert_action 0 (JStr "com.example.app")
                  JNull JNull (JStr "ignore") (start unbound []))
           eq_refl eq_refl eq_refl).
Defined.

(** The client of a new session, and the client that asked for it. *)
Lemma session_leaves_receiver_witness :
  self (session 1 JNull JNull JNull JNull
          (start unbound [ok (JObj unlocked); ok (JObj (created "S9"))])).2
  = unbound
  ∧ __wda_url (mkClient "http://localhost:8100/" (JStr "S9") 30.0 ∅)
    = __wda_url unbound
  ∧ __timeout (mkClient "http://localhost:8100/" (JStr "S9") 30.0 ∅)
    = __timeout unbound
  ∧ __callbacks (mkClient "http://localhost:8100/" (JStr "S9") 30.0 ∅)
    = __callbacks unbound.
Proof.
  destruct (session_leaves_receiver 1 JNull JNull JNull JNull
              (start unbound [ok (JObj unlocked); ok (JObj (created "S9"))]))
    as [Hself Hclient].
  split; [exact Hself|].
  apply (Hclient _
           (mkState unbound
              (mkWorld []
                 [ GET "http://localhost:8100/wda/locked";
                   POST "http://localhost:8100/session"
                     (session_payload ∅) ]))).
  vm_compute. reflexivity.
Defined.

(** The identifier that discovery binds the client to. *)
Lemma session_id_returns_an_identifier_witness :
  truthy (JStr "S0") = true
  ∧ (self (mkState (set_session_id (JStr "S0") unbound)
             (mkWorld ([] : list HttpOutcome)
                [GET "http://localhost:8100/status"]))
     = self (start unbound [ok (JObj (created "S0"))])
     ∨ (truthy (__session_id (self (start unbound [ok (JObj (created "S0"))])))
        = false
        ∧ self (mkState (set_session_id (JStr "S0") unbound)
                  (mkWorld ([] : list HttpOutcome)
                     [GET "http://localhost:8100/status"]))
          = set_session_id (JStr "S0")
              (self (start unbound [ok (JObj (created "S0"))])))).
Proof.
  apply (session_id_returns_an_identifier 1
           (start unbound [ok (JObj (created "S0"))])).
  vm_compute. reflexivity.
Defined.

(** The lock query is answered with a 502. *)
Lemma session_stops_at_lock_failure_witness :
  session 1 JNull JNull JNull JNull
    (mkState unbound (mkWorld [HttpResponse 502 "Bad Gateway" None] [])) =
  (Raise bad_gateway,
   mkState unbound (mkWorld [] ([] ++ [GET "http://localhost:8100/wda/locked"]))).
Proof.
  destruct (session_stops_at_lock_failure 0 JNull JNull JNull JNull unbound
              [HttpResponse 502 "Bad Gateway" None] [] ∅ eq_refl)
    as [Hquery _].
  apply Hquery. reflexivity.
Defined.

(** The creation call is answered with a 502. *)
Lemma session_propagates_other_errors_witness :
  session 1 JNull JNull JNull JNull
    (mkState unbound
       (mkWorld [ok (JObj unlocked); HttpResponse 502 "Bad Gateway" None] [])) =
  (Raise bad_gateway,
   mkState unbound
     (mkWorld []
        ([] ++ [GET "http://localhost:8100/wda/locked"]
            ++ [POST "http://localhost:8100/session" (session_payload ∅)]))).
Proof.
  refine (session_propagates_other_errors 0 JNull JNull JNull JNull unbound
            [ok (JObj unlocked); HttpResponse 502 "Bad Gateway" None] [] ∅
            [GET "http://localhost:8100/wda/locked"]
            [HttpResponse 502 "Bad Gateway" None] bad_gateway [] _ _ _ _).
  - reflexivity.
  - exists unlocked, (JBool false), [HttpResponse 502 "Bad Gateway" None].
    repeat split.
  - reflexivity.
  - discriminate.
Defined.

(** The alert shows Cancel and OK; Allow and OK are looked for. *)
Lemma alert_click_takes_first_shown_witness :
  Alert_click (session_id 0) (BNames ["Allow"; "OK"])
    (mkState bound
       (mkWorld [ ok (JObj (labels_of [JStr "Cancel"; JStr "OK"]));
                  ok (JObj (done_with "S1")) ] [])) =
  (Return (JStr "OK"),
   mkState bound
     (mkWorld []
        [ GET "http://localhost:8100/session/S1/wda/alert/buttons";
          POST "http://localhost:8100/session/S1/alert/accept"
            (JObj {[ "name" := JStr "OK" ]}) ])).
Proof.
  destruct (alert_click_takes_first_shown 0 ["Allow"; "OK"] bound
              [ ok (JObj (labels_of [JStr "Cancel"; JStr "OK"]));
                ok (JObj (done_with "S1")) ] []
              (labels_of [JStr "Cancel"; JStr "OK"])
              [JStr "Cancel"; JStr "OK"]
              [ok (JObj (done_with "S1"))] ltac:(run) ltac:(run) ltac:(run))
    as [Hfirst _].
  apply (Hfirst ["Allow"] "OK" [] ltac:(run)).
  - intros b Hb. apply list_elem_of_singleton in Hb as ->. absent.
  - apply elem_of_cons. right. apply elem_of_cons. by left.
Defined.

(** The alert shows Cancel only; OK is looked for. *)
Lemma alert_click_exists_swallows_witness :
  Alert_click_exists (session_id 0) (BNames ["OK"])
    (mkState bound (mkWorld [ok (JObj (labels_of [JStr "Cancel"]))] [])) =
  (Return JNull,
   mkState bound
     (mkWorld []
        [GET "http://localhost:8100/session/S1/wda/alert/buttons"])).
Proof.
  destruct (alert_click_exists_swallows 0 bound
              [ok (JObj (labels_of [JStr "Cancel"]))] []
              (labels_of [JStr "Cancel"]) (JList [JStr "Cancel"]) []
              ltac:(run) ltac:(run) ltac:(run))
    as (_ & Hnone & _).
  apply (Hnone ["OK"] [JStr "Cancel"] ltac:(run)).
  intros b Hb. apply list_elem_of_singleton in Hb as ->. absent.
Defined.

(** No alert is open. *)
Lemma alert_exists_outcome_witness :
  Alert_exists (session_id 0) (mkState bound (mkWorld [no_alert] [])) =
  (Return false,
   mkState bound
     (mkWorld [] [GET "http://localhost:8100/session/S1/alert/text"])).
Proof.
  exact (alert_exists_outcome 0 bound [no_alert] [] ltac:(run)).
Defined.

(** Three empty answers. *)
Lemma orientation_asks_three_times_witness :
  orientation (session_id 0)
    (mkState bound
       (mkWorld [ ok (JObj (answer (JStr ""))); ok (JObj (answer (JStr "")));
                  ok (JObj (answer (JStr ""))) ] [])) =
  (Return JNull,
   mkState bound
     (mkWorld []
        [ GET "http://localhost:8100/session/S1/orientation"; Sleep (1#2);
          GET "http://localhost:8100/session/S1/orientation"; Sleep (1#2);
          GET "http://localhost:8100/session/S1/orientation"; Sleep (1#2) ])).
Proof.
  destruct (orientation_asks_three_times 0 bound
              [ ok (JObj (answer (JStr ""))); ok (JObj (answer (JStr "")));
                ok (JObj (answer (JStr ""))) ] [] ltac:(run))
    as (_ & _ & Hempty).
  exact (Hempty (answer (JStr "")) (JStr "")
           [ok (JObj (answer (JStr ""))); ok (JObj (answer (JStr "")))]
           (answer (JStr "")) (JStr "") [ok (JObj (answer (JStr "")))]
           (answer (JStr "")) (JStr "") []
           ltac:(run) ltac:(run) ltac:(run) ltac:(run) ltac:(run) ltac:(run)
           ltac:(run) ltac:(run) ltac:(run)).
Defined.

(** A button that [press] does not know. *)
Lemma press_validates_name_witness :
  press (session_id 0) "power" (start bound []) =
  (Raise (mkExn ValueError
            [JStr "Invalid name: power, should be one of ('home', 'volumeUp', 'volumeDown')"]),
   start bound []).
Proof.
  destruct (press_validates_name 0 "power" bound [] []) as [Hother _].
  apply Hother. absent.
Defined.

(** The name of the combination in mixed case. *)
Lemma press_duration_ignores_case_witness :
  press_duration (session_id 0) "POWER+HOME" (JInt 1)
  = press_duration (session_id 0) "Power+Home" (JInt 1)
  ∧ press_duration (session_id 0) "Power+Home" (JInt 1)
      (mkState bound (mkWorld [ok (JObj (done_with "S1"))] [])) =
    (Return (done_with "S1"),
     mkState bound
       (mkWorld []
          [ POST "http://localhost:8100/session/S1/wda/performIoHidEvent"
              (JObj {[ "page" := JInt 12; "usage" := JInt 101;
                       "duration" := JInt 1 ]}) ])).
Proof.
  destruct (press_duration_ignores_case 0 "Power+Home" (JInt 1) bound
              [ok (JObj (done_with "S1"))] [])
    as (Hcase & _ & Hknown).
  split.
  - exact (Hcase (session_id 0) "POWER+HOME" eq_refl eq_refl eq_refl).
  - exact (Hknown 101%Z ltac:(run) ltac:(run)).
Defined.

(** A launch on a locked device. *)
Lemma app_launch_checks_then_unlocks_witness :
  app_launch (session_id 0) (JStr "com.example.app") (JList []) (JObj ∅)
    (JBool false)
    (mkState bound
       (mkWorld [ ok (JObj locked_device); ok (JObj (done_with "S1"));
                  ok (JObj (done_with "S1")) ] [])) =
  (Return (done_with "S1"),
   mkState bound
     (mkWorld []
        [ GET "http://localhost:8100/wda/locked";
          POST "http://localhost:8100/wda/unlock" JNull;
          POST "http://localhost:8100/session/S1/wda/apps/launch"
            (JObj {[ "bundleId" := JStr "com.example.app";
                     "arguments" := JList [];
                     "environment" := JObj ∅;
                     "shouldWaitForQuiescence" := JBool false ]}) ])).
Proof.
  destruct (app_launch_checks_then_unlocks 0 (JStr "com.example.app")
              (JList []) (JObj ∅) (JBool false) bound
              [ ok (JObj locked_device); ok (JObj (done_with "S1"));
                ok (JObj (done_with "S1")) ] [])
    as (_ & _ & Hlaunch).
  refine (Hlaunch [] ∅
            [ GET "http://localhost:8100/wda/locked";
              POST "http://localhost:8100/wda/unlock" JNull ]
            [ok (JObj (done_with "S1"))] ltac:(run) ltac:(run) ltac:(run) _).
  exists locked_device, (JBool true),
    [ok (JObj (done_with "S1")); ok (JObj (done_with "S1"))].
  split; [run|]. split; [run|].
  exists (done_with "S1"). split; run.
Defined.

(** A poll whose value is [None]. *)
Lemma watcher_ends_on_other_errors_witness :
  _inner (session_id 0) [false; false; true] ["OK"] 2
    (mkState bound (mkWorld [ok (JObj (done_with "S1"))] [])) =
  (Raise (mkExn TypeError []),
   mkState bound
     (mkWorld []
        [ GET "http://localhost:8100/session/S1/wda/alert/buttons";
          Log "info" "Alert detected, buttons: %s" [JNull] ])).
Proof.
  destruct (watcher_ends_on_other_errors 0 2 bound
              [ok (JObj (done_with "S1"))] [] (done_with "S1") []
              ltac:(run) ltac:(run) ltac:(run))
    as [_ Hnone].
  exact (Hnone "OK" [] [false; true]).
Defined.

(** Two turns with no alert open, then the stop signal. *)
Lemma watcher_polls_until_stopped_witness :
  let run :=
    @_inner externals unit (constant no_alert)
      (@session_id externals unit (constant no_alert) 0)
      [false; false; true] ["OK"] 2
      (mkState bound (mkWorld tt [])) in
  run.1 = Return tt
  ∧ self run.2 = bound
  ∧ trace (world run.2)
    = [ GET "http://localhost:8100/session/S1/wda/alert/buttons"; Sleep 2;
        GET "http://localhost:8100/session/S1/wda/alert/buttons"; Sleep 2 ].
Proof.
  refine (@watcher_polls_until_stopped externals unit (constant no_alert)
            0 2 ["OK"] 2 bound tt [] no_alert no_alert_error _ _ _ _).
  - reflexivity.
  - intros d' rq. reflexivity.
  - run.
  - reflexivity.
Defined.

(** Two clients of one session with different timeouts. *)
Lemma fetch_depends_on_url_and_session_witness :
  let run c :=
    _fetch (session_id 0) "GET" "source" JNull true (Some 5)
      (mkState c (mkWorld [ok (JObj (answer (JStr "<xml/>")))] [])) in
  (run bound).1 = (run patient).1
  ∧ world (run bound).2 = world (run patient).2
  ∧ ∃ rq, trace (world (run bound).2) = ([] ++ [Http rq])%list
          ∧ req_timeout rq = Some 5.
Proof.
  refine (fetch_depends_on_url_and_session 0 "GET" "source" JNull true
            (Some 5) bound patient
            [ok (JObj (answer (JStr "<xml/>")))] [] _ _ _).
  - reflexivity.
  - reflexivity.
  - intros _. reflexivity.
Defined.

(** One tap, answered. *)
Lemma tap_returns_first_answer_witness :
  tap (session_id 0) (JInt 10) (JInt 20)
    (mkState bound (mkWorld [ok (JObj (done_with "S1"))] [])) =
  (Return (done_with "S1"),
   mkState bound
     (mkWorld []
        [ POST "http://localhost:8100/session/S1/wda/tap"
            (JObj {[ "x" := JInt 10; "y" := JInt 20 ]}) ])).
Proof.
  refine (tap_returns_first_answer 0 (JInt 10) (JInt 20) bound
            [ok (JObj (done_with "S1"))] [] (done_with "S1") [] _ _).
  - reflexivity.
  - run.
Defined.

(** Two characters. *)
Lemma send_keys_sends_each_character_witness :
  code_points "hi" = ["h"; "i"]
  ∧ send_keys_once (session_id 0) (JStr "hi")
      (mkState bound (mkWorld [ok (JObj (done_with "S1"))] [])) =
    (Return (JObj (done_with "S1")),
     mkState bound
       (mkWorld []
          [ POST "http://localhost:8100/session/S1/wda/keys"
              (JObj {[ "value" := JList [JStr "h"; JStr "i"] ]}) ])).
Proof.
  destruct (send_keys_sends_each_character 0 "hi" bound
              [ok (JObj (done_with "S1"))] [] eq_refl)
    as (_ & _ & Hsingle & Hsend).
  split.
  - clear Hsend. rewrite Hsingle; [reflexivity|]. intros a Ha.
    repeat (apply elem_of_cons in Ha as [->|Ha]; [reflexivity|]).
    destruct (proj1 (elem_of_nil a) Ha).
  - clear Hsingle. etrans; [exact Hsend|]. vm_compute. reflexivity.
Defined.

(** A page of HTML in place of JSON. *)
Lemma fetch_malformed_message_is_cut_witness :
  ∃ head,
    _fetch_decode "GET" "http://localhost:8100/status" JNull
      (HttpResponse 200 "<html>" None) =
    Raise (mkExn WDAError
             [ JStr "GET"; JStr "http://localhost:8100/status";
               JStr (head ++ "...") ])
    ∧ String.prefix head "<html>" = true
    ∧ ((List.length (code_points "<html>") ≤ 100)%nat → head = "<html>")
    ∧ ((∀ a, a ∈ list_ascii_of_string "<html>" → is_continuation a = false) →
       (String.length head ≤ 100)%nat).
Proof.
  refine (fetch_malformed_message_is_cut "GET" "http://localhost:8100/status"
            JNull 200 "<html>" _ _).
  - discriminate.
  - reflexivity.
Defined.

(** A URL without the separator at its end. *)
Lemma constructor_ends_in_separator_witness :
  BaseClient (Some "http://localhost:8100") JNull = Return unbound.
Proof.
  destruct (constructor_ends_in_separator "http://localhost:8100" JNull)
    as (_ & p & Hclient & _ & Hplain).
  rewrite Hclient, (Hplain ltac:(run)). reflexivity.
Defined.

(** A creation response without an identifier. *)
Lemma session_binds_what_the_agent_issues_witness :
  session 1 JNull JNull JNull JNull
    (mkState unbound
       (mkWorld [ok (JObj unlocked); ok (JObj anonymous)] [])) =
  (Raise (mkExn AttributeError [JStr "sessionId"]),
   mkState unbound
     (mkWorld []
        [ GET "http://localhost:8100/wda/locked";
          POST "http://localhost:8100/session" (session_payload ∅) ])).
Proof.
  destruct (session_binds_what_the_agent_issues 0 JNull JNull JNull JNull
              unbound [ok (JObj unlocked); ok (JObj anonymous)] [] ∅
              [GET "http://localhost:8100/wda/locked"]
              [ok (JObj anonymous)] anonymous [])
    as [_ Hmissing].
  - reflexivity.
  - exists unlocked, (JBool false), [ok (JObj anonymous)]. repeat split.
  - run.
  - apply Hmissing. reflexivity.
Defined.

(** An agent that never issues an identifier. *)
Lemma session_id_never_settles_witness :
  (@session_id externals unit (constant (ok (JObj no_session))) 5
     (mkState unbound (mkWorld tt []))).1 = Exhausted.
Proof.
  refine (@session_id_never_settles externals unit
            (constant (ok (JObj no_session))) 5 unbound tt []
            (ok (JObj no_session)) no_session JNull _ _ _ _ _ _).
  - intros d' rq. reflexivity.
  - intros method url data. reflexivity.
  - reflexivity.
  - reflexivity.
  - reflexivity.
  - reflexivity.
Defined.

End MoreExamples.
